(** * Stats widget: normalizer, load life cycle, centre label, proxy handlers

    A shallow embedding of [src/components/stats-chart.tsx] (the normalizer
    [toNum] / [unwrapValPrev] / [normalizeToStatsData], the data fetch
    [fetchStats], the [StatsChart] component) and of the two route handlers
    that proxy the analytics client.

    JavaScript numbers are IEEE 754 binary64 values; they are embedded as the
    kernel's primitive floats, so [/], [>], [!==] and [Number.isFinite] are
    the operations the program runs, NaN, the infinities and the two zeros
    included. *)

From Stdlib Require Import ZArith String List Floats.
From stdpp Require Import base option strings gmap.

#[local] Set Warnings "-register-all".

Local Open Scope string_scope.

(** ** JavaScript values *)

Module Js.

(** The values a payload of type [RawStats] (an arbitrary record, or whatever
    [res.json()] produced) can hold. Objects are finite maps from property
    names to values. *)
Inductive value : Type :=
  | Undefined
  | Null
  | Bool (b : bool)
  | Number (n : float)
  | String (s : string)
  | Array (items : list value)
  | Object (props : gmap string value).

(** [typeof v === "object" && v !== null]: arrays have type ["object"] too. *)
Definition is_object (v : value) : bool :=
  match v with Array _ | Object _ => true | _ => false end.

(** [Number.isFinite] on a number: neither NaN nor an infinity. *)
Definition Number_isFinite (n : float) : bool := PrimFloat.is_finite n.

(** [v?.k] and, on a non-null value, [v.k], for a property name [k] that no
    prototype defines (every name read by the component is one): a missing
    property, and any property of a primitive or an array, is [undefined]. *)
Definition get (v : value) (k : string) : value :=
  match v with
  | Object props => default Undefined (props !! k)
  | _ => Undefined
  end.

(** [a !== b] on two numbers: the IEEE comparison, under which NaN differs
    from itself and the two zeros are equal. *)
Definition strict_neq (a b : float) : bool := negb (PrimFloat.eqb a b).

(** [a > b] on two numbers. *)
Definition gt (a b : float) : bool := PrimFloat.ltb b a.

(** An object literal, from its properties in source order: a property
    named like an earlier one replaces it. *)
Definition obj (props : list (string * value)) : value :=
  Object (foldl (fun m kv => <[kv.1 := kv.2]> m) ∅ props).

End Js.

(** ** Types *)

(** One entry of [StatsData]: [{ value: number; prev: number }]. *)
Record Metric : Type := mkMetric { value : float; prev : float }.

Record StatsData : Type := mkStatsData {
  pageviews : Metric;
  visitors : Metric;
  visits : Metric;
  bounces : Metric;
  (** minutes (avg per visit) after normalization *)
  totaltime : Metric
}.

(** ** Utils *)

(** [typeof v === "number" && Number.isFinite(v) ? v : fallback] *)
Definition toNum (v : Js.value) (fallback : float) : float :=
  match v with
  | Js.Number n => if Js.Number_isFinite n then n else fallback
  | _ => fallback
  end.

Definition unwrapValPrev (maybe : Js.value) : Metric :=
  let fallthrough := {| value := toNum maybe 0; prev := 0 |} in
  if Js.is_object maybe then
    let value := toNum (Js.get maybe "value") 0 in
    let prev := toNum (Js.get maybe "prev") 0 in
    if Js.strict_neq value 0 || Js.strict_neq prev 0
    then {| value := value; prev := prev |}
    else fallthrough
  else fallthrough.

Definition normalizeToStatsData (raw : Js.value) : StatsData :=
  let pageviews := unwrapValPrev (Js.get raw "pageviews") in
  let visitors := unwrapValPrev (Js.get raw "visitors") in
  let visits := unwrapValPrev (Js.get raw "visits") in
  let bounces := unwrapValPrev (Js.get raw "bounces") in
  let totaltimeRaw := unwrapValPrev (Js.get raw "totaltime") in
  let visitsCurr := toNum (Js.Number (value visits)) 0 in
  let visitsPrev := toNum (Js.Number (prev visits)) 0 in
  let totalSecondsCurr := toNum (Js.Number (value totaltimeRaw)) 0 in
  let totalSecondsPrev := toNum (Js.Number (prev totaltimeRaw)) 0 in
  let avgMinutesCurr :=
    if Js.gt visitsCurr 0
    then (totalSecondsCurr / visitsCurr / 60)%float else 0%float in
  let avgMinutesPrev :=
    if Js.gt visitsPrev 0
    then (totalSecondsPrev / visitsPrev / 60)%float else 0%float in
  {| pageviews := pageviews;
     visitors := visitors;
     visits := visits;
     bounces := bounces;
     totaltime := {| value := avgMinutesCurr; prev := avgMinutesPrev |} |}.

(** The expression of [avgMinutesCurr] and [avgMinutesPrev], as a function
    of the period's visit count and total seconds. *)
Definition avgMinutes (visitCount totalSeconds : float) : float :=
  if Js.gt visitCount 0 then (totalSeconds / visitCount / 60)%float else 0%float.

(** The five keys of a snapshot, their property names, and the snapshot's
    entry under each. *)
Inductive MetricKey : Type := Pageviews | Visitors | Visits | Bounces | Totaltime.

Definition key_name (k : MetricKey) : string :=
  match k with
  | Pageviews => "pageviews"
  | Visitors => "visitors"
  | Visits => "visits"
  | Bounces => "bounces"
  | Totaltime => "totaltime"
  end.

Definition metric_of (k : MetricKey) (s : StatsData) : Metric :=
  match k with
  | Pageviews => pageviews s
  | Visitors => visitors s
  | Visits => visits s
  | Bounces => bounces s
  | Totaltime => totaltime s
  end.

(** The count metrics: every key but [totaltime], which is recomputed. *)
Definition is_count (k : MetricKey) : bool :=
  match k with Totaltime => false | _ => true end.

(** ** Data fetch *)

(** How a promise settles, and how a [try] block completes: normally with a
    value, or with a thrown one. *)
Inductive Completion (A : Type) : Type :=
  | Normal (a : A)
  | Throw (e : Js.value).
Arguments Normal {A} a.
Arguments Throw {A} e.

Module Fetch.

(** What the component reads of a fetched [Response]. *)
Record Response : Type := { status : Z; statusText : string }.

(** [res.ok]: the status is in the range 200-299. *)
Definition ok (res : Response) : bool :=
  (200 <=? status res)%Z && (status res <=? 299)%Z.

End Fetch.

(** The two [console.error] calls of the component. *)
Inductive LogEntry : Type :=
  | Failed_to_fetch_stats (status : Z) (statusText : string)
  | Error_loading_stats (e : Js.value).

(** An asynchronous function body of the component, as the tree of what it
    does next: it returns, throws, awaits the fetch or the body's JSON (and
    resumes with how that promise settled), logs, reads the effect's
    [mounted] flag, or calls the state setter. *)
Inductive Async (A : Type) : Type :=
  | Ret (a : A)
  | Raise (e : Js.value)
  | AwaitFetch (url : string) (k : Completion Fetch.Response -> Async A)
  | AwaitJson (res : Fetch.Response) (k : Completion Js.value -> Async A)
  | ConsoleError (l : LogEntry) (k : Async A)
  | ReadMounted (k : bool -> Async A)
  | SetStats (s : StatsData) (k : Async A).
Arguments Ret {A} a.
Arguments Raise {A} e.
Arguments AwaitFetch {A} url k.
Arguments AwaitJson {A} res k.
Arguments ConsoleError {A} l k.
Arguments ReadMounted {A} k.
Arguments SetStats {A} s k.

Fixpoint Async_bind {A B : Type} (f : A -> Async B) (m : Async A) : Async B :=
  match m with
  | Ret a => f a
  | Raise e => Raise e
  | AwaitFetch url k => AwaitFetch url (fun c => Async_bind f (k c))
  | AwaitJson res k => AwaitJson res (fun c => Async_bind f (k c))
  | ConsoleError l k => ConsoleError l (Async_bind f k)
  | ReadMounted k => ReadMounted (fun b => Async_bind f (k b))
  | SetStats s k => SetStats s (Async_bind f k)
  end.

#[export] Instance Async_mret : MRet Async := @Ret.
#[export] Instance Async_mbind : MBind Async := @Async_bind.

(** [try { body } catch (e) { handler }] *)
Fixpoint try_catch {A : Type} (body : Async A) (handler : Js.value -> Async A)
  : Async A :=
  match body with
  | Ret a => Ret a
  | Raise e => handler e
  | AwaitFetch url k => AwaitFetch url (fun c => try_catch (k c) handler)
  | AwaitJson res k => AwaitJson res (fun c => try_catch (k c) handler)
  | ConsoleError l k => ConsoleError l (try_catch k handler)
  | ReadMounted k => ReadMounted (fun b => try_catch (k b) handler)
  | SetStats s k => SetStats s (try_catch k handler)
  end.

(** [await p]: resumes with the value, or throws what [p] rejected with. *)
Definition settled {A : Type} (c : Completion A) : Async A :=
  match c with Normal a => Ret a | Throw e => Raise e end.

Definition await_fetch (url : string) : Async Fetch.Response :=
  AwaitFetch url settled.
Definition await_json (res : Fetch.Response) : Async Js.value :=
  AwaitJson res settled.
Definition console_error (l : LogEntry) : Async unit := ConsoleError l (Ret tt).
Definition read_mounted : Async bool := ReadMounted Ret.
Definition setStats (s : StatsData) : Async unit := SetStats s (Ret tt).

(** [if (b) m;] *)
Definition when (b : bool) (m : Async unit) : Async unit :=
  if b then m else Ret tt.

(** Where the code runs: in a browser ([window] is defined) or on the
    server, with the environment's [NEXT_PUBLIC_BASE_URL] if it is set. *)
Record Env : Type := {
  window_defined : bool;
  NEXT_PUBLIC_BASE_URL : option string
}.

(** Stable zeroed fallback keeps UI rendering *)
Definition zeroStats : StatsData :=
  {| pageviews := {| value := 0; prev := 0 |};
     visitors := {| value := 0; prev := 0 |};
     visits := {| value := 0; prev := 0 |};
     bounces := {| value := 0; prev := 0 |};
     totaltime := {| value := 0; prev := 0 |} |}.

Definition fetchStats (env : Env) : Async StatsData :=
  let baseUrl :=
    if window_defined env then ""
    else default "undefined" (NEXT_PUBLIC_BASE_URL env) in
  res ← await_fetch (baseUrl ++ "/api/fetch-umami-stats");
  if negb (Fetch.ok res) then
    console_error (Failed_to_fetch_stats (Fetch.status res) (Fetch.statusText res));;
    mret zeroStats
  else
    raw ← await_json res;
    mret (normalizeToStatsData raw).

(** ** Component *)

(** The body of the effect's [load]. *)
Definition load (env : Env) : Async unit :=
  try_catch
    (s ← fetchStats env;
     mounted ← read_mounted;
     when mounted (setStats s))
    (fun e =>
       console_error (Error_loading_stats e);;
       mounted ← read_mounted;
       when mounted (setStats zeroStats)).

(** A mounted instance of [StatsChart]: the [stats] state, the effect's
    [mounted] flag, what is left of [load()] ([Ret] once its promise is
    fulfilled, [Raise] if it were rejected), and what the instance has done
    so far: the console, and the arguments of each call of the setter,
    latest first. *)
Record Widget : Type := {
  stats : option StatsData;
  mounted : bool;
  task : Async unit;
  console : list LogEntry;
  setStats_calls : list StatsData
}.

(** [console.error(l)] *)
Definition logged (l : LogEntry) (w : Widget) : Widget :=
  {| stats := stats w; mounted := mounted w; task := task w;
     console := l :: console w; setStats_calls := setStats_calls w |}.

(** A call [setStats(s)] of the state setter. *)
Definition stats_set (s : StatsData) (w : Widget) : Widget :=
  {| stats := Some s; mounted := mounted w; task := task w;
     console := console w; setStats_calls := s :: setStats_calls w |}.

(** The task stops at [t]: an await, or its end. *)
Definition suspended (t : Async unit) (w : Widget) : Widget :=
  {| stats := stats w; mounted := mounted w; task := t;
     console := console w; setStats_calls := setStats_calls w |}.

(** Runs a task up to its next [await] (or to its end). *)
Fixpoint advance (t : Async unit) (w : Widget) : Widget :=
  match t with
  | ConsoleError l k => advance k (logged l w)
  | ReadMounted k => advance (k (mounted w)) w
  | SetStats s k => advance k (stats_set s w)
  | Ret _ | Raise _ | AwaitFetch _ _ | AwaitJson _ _ => suspended t w
  end.

(** First render and effect: [useState(null)], [mounted = true], [load()]. *)
Definition mount (env : Env) : Widget :=
  advance (load env)
    {| stats := None; mounted := true; task := Ret tt;
       console := []; setStats_calls := [] |}.

(** What can happen to a mounted instance: the fetch settles, the body's
    JSON settles, or React runs the effect's cleanup. *)
Inductive Event : Type :=
  | FetchSettled (c : Completion Fetch.Response)
  | JsonSettled (c : Completion Js.value)
  | Cleanup.

(** The effect's cleanup: [mounted = false]. *)
Definition cleanup (w : Widget) : Widget :=
  {| stats := stats w; mounted := false; task := task w;
     console := console w; setStats_calls := setStats_calls w |}.

(** One event; a settlement the task is not waiting for changes nothing. *)
Definition step (w : Widget) (ev : Event) : Widget :=
  match ev, task w with
  | Cleanup, _ => cleanup w
  | FetchSettled c, AwaitFetch _ k => advance (k c) w
  | JsonSettled c, AwaitJson _ k => advance (k c) w
  | _, _ => w
  end.

Definition run (w : Widget) (evs : list Event) : Widget := foldl step w evs.

(** The widget's states: [stats] is [null], or holds a snapshot. *)
Inductive WidgetState : Type :=
  | Loading
  | Ready (snapshot : StatsData).

Definition state_of (w : Widget) : WidgetState :=
  match stats w with None => Loading | Some s => Ready s end.

(** How one load attempt goes: the fetch throws, or there is a response,
    whose body, if it is read, parses or throws. *)
Inductive Outcome : Type :=
  | FetchThrows (e : Js.value)
  | Responds (res : Fetch.Response) (body : Completion Js.value).

(** The settlements of an attempt; the body of a response that is not [ok]
    is never read. *)
Definition events_of (o : Outcome) : list Event :=
  match o with
  | FetchThrows e => [FetchSettled (Throw e)]
  | Responds res body =>
      FetchSettled (Normal res)
        :: (if Fetch.ok res then [JsonSettled body] else [])
  end.

(** A failure: the fetch throws, the status is not 2xx, or parsing the body
    throws. *)
Definition failed (o : Outcome) : bool :=
  match o with
  | FetchThrows _ => true
  | Responds res body =>
      negb (Fetch.ok res)
      || match body with Throw _ => true | Normal _ => false end
  end.

(** [t], run with the [mounted] flag at [b] and the flag possibly cleared
    while [t] awaits, calls the state setter only while the flag is set. *)
Fixpoint guarded (b : bool) (t : Async unit) : Prop :=
  match t with
  | Ret _ | Raise _ => True
  | AwaitFetch _ k => forall c, guarded b (k c) /\ guarded false (k c)
  | AwaitJson _ k => forall c, guarded b (k c) /\ guarded false (k c)
  | ConsoleError _ k => guarded b k
  | ReadMounted k => guarded b (k b)
  | SetStats _ k => b = true /\ guarded b k
  end.

(** [t] never ends by throwing, however its awaits settle and whatever the
    flag reads. *)
Fixpoint never_throws (t : Async unit) : Prop :=
  match t with
  | Ret _ => True
  | Raise _ => False
  | AwaitFetch _ k => forall c, never_throws (k c)
  | AwaitJson _ k => forall c, never_throws (k c)
  | ConsoleError _ k => never_throws k
  | ReadMounted k => forall b, never_throws (k b)
  | SetStats _ k => never_throws k
  end.

(** [t] never calls the state setter, however its awaits settle and
    whatever the flag reads. *)
Fixpoint sets_nothing (t : Async unit) : Prop :=
  match t with
  | Ret _ | Raise _ => True
  | AwaitFetch _ k => forall c, sets_nothing (k c)
  | AwaitJson _ k => forall c, sets_nothing (k c)
  | ConsoleError _ k => sets_nothing k
  | ReadMounted k => forall b, sets_nothing (k b)
  | SetStats _ _ => False
  end.

(** [t] calls the state setter at most once. *)
Fixpoint sets_at_most_once (t : Async unit) : Prop :=
  match t with
  | Ret _ | Raise _ => True
  | AwaitFetch _ k => forall c, sets_at_most_once (k c)
  | AwaitJson _ k => forall c, sets_at_most_once (k c)
  | ConsoleError _ k => sets_at_most_once k
  | ReadMounted k => forall b, sets_at_most_once (k b)
  | SetStats _ k => sets_nothing k
  end.

(** An instance that sets its state at most once: either it has not yet,
    or it has, to the snapshot it holds, and will not again. *)
Definition single_shot (w : Widget) : Prop :=
  (stats w = None /\ setStats_calls w = [] /\ sets_at_most_once (task w))
  \/ (exists s, stats w = Some s /\ setStats_calls w = [s]
                /\ sets_nothing (task w)).

(** [t] calls the state setter only with snapshots that are [allowed], or
    that normalize a body it awaited and got. *)
Fixpoint shows_only (allowed : StatsData -> Prop) (t : Async unit) : Prop :=
  match t with
  | Ret _ | Raise _ => True
  | AwaitFetch _ k => forall c, shows_only allowed (k c)
  | AwaitJson _ k =>
      forall c,
        shows_only
          (fun s => allowed s
                    \/ exists raw, c = Normal raw /\ s = normalizeToStatsData raw)
          (k c)
  | ConsoleError _ k => shows_only allowed k
  | ReadMounted k => forall b, shows_only allowed (k b)
  | SetStats s k => allowed s /\ shows_only allowed k
  end.

(** The snapshots an instance may hold after the events [evs]: the all-zero
    one, and the normalization of a body that settled among [evs]. *)
Definition arrived (evs : list Event) (s : StatsData) : Prop :=
  s = zeroStats
  \/ exists raw, In (JsonSettled (Normal raw)) evs /\ s = normalizeToStatsData raw.


(** The invariant of a mounted instance: its task is guarded, under its
    flag and under a cleared one, and never throws. *)
Definition well_behaved (w : Widget) : Prop :=
  guarded (mounted w) (task w)
  /\ guarded false (task w)
  /\ never_throws (task w).

(** ** Rendering *)

Module Chart.

(** One entry of [chartData]. *)
Record Slice : Type := { type : string; visitors : float; fill : string }.

(** The [viewBox] the chart library hands to the label's [content]:
    [cx] and [cy] may each be missing from it. *)
Record ViewBox : Type := { cx : option float; cy : option float }.

(** What a [<tspan>] of the label shows: a number, or literal text. *)
Inductive Child : Type :=
  | NumberChild (n : float)
  | TextChild (s : string).

Record Tspan : Type := {
  tspan_x : float;
  tspan_y : float;
  className : string;
  child : Child
}.

(** The label's [<text>] element with its two [<tspan>]s, in order. *)
Record Text : Type := {
  x : float;
  y : float;
  textAnchor : string;
  dominantBaseline : string;
  tspans : list Tspan
}.

(** The [<Pie>] with its [<Label>]. *)
Record Pie : Type := {
  data : list Slice;
  dataKey : string;
  nameKey : string;
  innerRadius : Z;
  strokeWidth : Z;
  label_content : option ViewBox -> option Text
}.

End Chart.

(** One entry of [chartConfig]: its label, and its color if it has one. *)
Record ConfigEntry : Type := { config_label : string; config_color : option string }.

(** [chartConfig], in source order. *)
Definition chartConfig : list (string * ConfigEntry) :=
  [ ("visitor_stats", {| config_label := "Visitors"; config_color := None |});
    ("pageviews", {| config_label := "Page Views";
                     config_color := Some "hsl(var(--chart-1))" |});
    ("visitors", {| config_label := "Users";
                    config_color := Some "hsl(var(--chart-2))" |});
    ("visits", {| config_label := "Visits";
                  config_color := Some "hsl(var(--chart-3))" |});
    ("bounces", {| config_label := "Bounces";
                   config_color := Some "hsl(var(--chart-4))" |});
    ("totaltime", {| config_label := "Average Time (min)";
                     config_color := Some "hsl(var(--chart-5))" |}) ].

(** [chartConfig[key]] *)
Definition config_of (key : string) : option ConfigEntry :=
  (list_to_map chartConfig : gmap string ConfigEntry) !! key.

(** [a || 0] on a number: 0 when [a] is falsy (a zero or NaN). *)
Definition or_zero (a : float) : float :=
  if PrimFloat.eqb a 0 || PrimFloat.is_nan a then 0%float else a.

(** [useMemo(() => ..., [stats])]; [?? 0] keeps a number as it is. *)
Definition chartData (stats : option StatsData) : list Chart.Slice :=
  match stats with
  | None => []
  | Some stats =>
      [ {| Chart.type := "pageviews";
           Chart.visitors := value (pageviews stats);
           Chart.fill := "var(--color-pageviews)" |};
        {| Chart.type := "visitors";
           Chart.visitors := value (visitors stats);
           Chart.fill := "var(--color-visitors)" |};
        {| Chart.type := "visits";
           Chart.visitors := value (visits stats);
           Chart.fill := "var(--color-visits)" |};
        {| Chart.type := "bounces";
           Chart.visitors := value (bounces stats);
           Chart.fill := "var(--color-bounces)" |};
        {| Chart.type := "totaltime";
           Chart.visitors := value (totaltime stats);
           Chart.fill := "var(--color-totaltime)" |} ]
  end.

(** The [content] of the [<Label>]: the text element when the view box has
    both [cx] and [cy], and [null] otherwise. *)
Definition label (visitsValue : float) (viewBox : option Chart.ViewBox)
  : option Chart.Text :=
  match viewBox with
  | Some {| Chart.cx := Some cx; Chart.cy := Some cy |} =>
      Some {| Chart.x := cx;
              Chart.y := cy;
              Chart.textAnchor := "middle";
              Chart.dominantBaseline := "middle";
              Chart.tspans :=
                [ {| Chart.tspan_x := cx;
                     Chart.tspan_y := cy;
                     Chart.className := "fill-foreground text-5xl font-bold";
                     Chart.child := Chart.NumberChild visitsValue |};
                  {| Chart.tspan_x := cx;
                     Chart.tspan_y := (or_zero cy + 24)%float;
                     Chart.className := "fill-muted-foreground ";
                     Chart.child := Chart.TextChild "Visits" |} ] |}
  | _ => None
  end.

(** What [StatsChart] returns for a value of its [stats] state. *)
Inductive Rendered : Type :=
  | LoaderCircle
  | PieChart (pie : Chart.Pie).

Definition StatsChart (stats : option StatsData) : Rendered :=
  match stats with
  | None => LoaderCircle
  | Some s =>
      let visitsValue := value (visits s) in
      PieChart {| Chart.data := chartData stats;
                  Chart.dataKey := "visitors";
                  Chart.nameKey := "type";
                  Chart.innerRadius := 70;
                  Chart.strokeWidth := 5;
                  Chart.label_content := label visitsValue |}
  end.

(** What the widget shows in a given state of an instance. *)
Definition view (w : Widget) : Rendered := StatsChart (stats w).

(** ** Route handlers *)

#[export] Instance Completion_mret : MRet Completion := @Normal.
#[export] Instance Completion_mbind : MBind Completion :=
  fun A B f c => match c with Normal a => f a | Throw e => Throw e end.

(** [try { return body } catch (error) { return handler(error) }]: what is
    thrown in [body] is caught; what [handler] throws is not. *)
Definition try_return {A : Type}
    (body : Completion A) (handler : Js.value -> Completion A) : Completion A :=
  match body with Normal a => Normal a | Throw e => handler e end.

Module Umami.

(** What a call of the analytics client resolves to; [status] is the
    status code of the upstream HTTP response. *)
Record ApiResponse : Type := {
  ok : bool;
  data : Js.value;
  status : Z;
  error : Js.value
}.

(** The two calls the handlers make; each takes the website id and the
    query object, and its promise settles with an [ApiResponse] or rejects. *)
Record Client : Type := {
  getWebsiteStats : string -> Js.value -> Completion ApiResponse;
  getWebsitePageviews : string -> Js.value -> Completion ApiResponse
}.

End Umami.

(** Two settlements of a client call that differ at most in what the
    handlers do not read: the thrown value; the [error]; the [status] of a
    result that is [ok]; the [data] of one that is not. *)
Definition relayed_alike (c c' : Completion Umami.ApiResponse) : Prop :=
  match c, c' with
  | Normal r, Normal r' =>
      Umami.ok r = Umami.ok r'
      /\ (if Umami.ok r then Umami.data r = Umami.data r'
          else Umami.status r = Umami.status r')
  | Throw _, Throw _ => True
  | _, _ => False
  end.

Module Route.

Section Handlers.

(** The text of a response body, and the text [JSON.stringify] gives for a
    value other than [undefined]. *)
Context {Body : Type} (JSON_stringify : Js.value -> Body).

(** [JSON.stringify(v)] as the body argument of [new Response]: a text, or
    for [undefined], which has none, [undefined], that is, no body. *)
Definition stringified (v : Js.value) : option Body :=
  match v with
  | Js.Undefined => None
  | _ => Some (JSON_stringify v)
  end.

(** A [Response]: its body, if it has one, and its status. *)
Record Response : Type := { body : option Body; status : Z }.

(** The conversion of an integer to the [unsigned short] that
    [ResponseInit.status] is declared as: modulo 2^16. *)
Definition unsigned_short (n : Z) : Z := (n mod 65536)%Z.

(** The null body statuses, which a response with a body cannot have. *)
Definition null_body_status (status : Z) : bool :=
  (status =? 101)%Z || (status =? 103)%Z || (status =? 204)%Z
  || (status =? 205)%Z || (status =? 304)%Z.

(** A status that [new Response] accepts together with a body: from 200 to
    599, and not a null body status. *)
Definition accepts_status (status : Z) : bool :=
  (200 <=? unsigned_short status)%Z && (unsigned_short status <=? 599)%Z
  && negb (null_body_status (unsigned_short status)).

(** [new Response(body, { status })]: throws a [RangeError] for a status
    outside 200 to 599, and a [TypeError] for a body with a null body
    status. *)
Definition new_Response (body : option Body) (status : Z) : Completion Response :=
  let status := unsigned_short status in
  let body_with_null_body_status :=
    match body with Some _ => null_body_status status | None => false end in
  if negb ((200 <=? status)%Z && (status <=? 599)%Z) then
    Throw (Js.obj [("name", Js.String "RangeError")])
  else if body_with_null_body_status then
    Throw (Js.obj [("name", Js.String "TypeError")])
  else
    Normal {| body := body; status := status |}.

(** The website ID *)
Definition websiteId : string := "2ff5fb4d-88e4-48a1-98ef-04b8191a6a5c".

(** The data object for [getWebsiteStats]; [now] is [Date.now()]. *)
Definition metricsData (now : float) : Js.value :=
  let oneDayInMilliseconds := (7 * 24 * 60 * 60 * 1000)%float in
  let startAt := (now - oneDayInMilliseconds)%float in
  Js.obj [("startAt", Js.Number startAt);
          ("endAt", Js.Number now);
          ("type", Js.String "url")].

(** The data object for [getWebsitePageviews]. *)
Definition pageviewsData (now : float) : Js.value :=
  let oneYearAgo := (now - 365 * 24 * 60 * 60 * 1000)%float in
  Js.obj [("startAt", Js.Number oneYearAgo);
          ("endAt", Js.Number now);
          ("unit", Js.String "day");
          ("timezone", Js.String "America/Los_Angeles");
          ("region", Js.String "US")].

(** The handler of the stats route: what its promise settles with. *)
Definition GET_stats (client : Umami.Client) (now : float) : Completion Response :=
  try_return
    (r ← Umami.getWebsiteStats client websiteId (metricsData now);
     if negb (Umami.ok r) then
       new_Response
         (stringified (Js.obj [("error", Js.String "Failed to fetch website metrics")]))
         (Umami.status r)
     else
       new_Response (stringified (Umami.data r)) 200)
    (fun error =>
       new_Response
         (stringified (Js.obj [("error", Js.String "Failed to fetch website metrics")]))
         500).

(** The handler of the pageviews route (its [console.log] calls, which do
    not bear on the response, are left out). *)
Definition GET_pageviews (client : Umami.Client) (now : float) : Completion Response :=
  try_return
    (response ← Umami.getWebsitePageviews client websiteId (pageviewsData now);
     if negb (Umami.ok response) then
       new_Response
         (stringified (Js.obj [("error", Js.String "Failed to fetch website pageviews")]))
         (Umami.status response)
     else
       new_Response (stringified (Umami.data response)) 200)
    (fun error =>
       new_Response
         (stringified (Js.obj [("error", Js.String "Failed to fetch website pageviews")]))
         500).

End Handlers.

End Route.

(** ** Facts about binary64 numbers *)

Section FloatFacts.

Local Open Scope float_scope.

(** Two numbers that some observation tells apart are different. *)
Lemma float_neq_by {B : Type} (f : float -> B) (x y : float) :
  f x <> f y -> x <> y.
Proof. intros Hf Heq. apply Hf. now rewrite Heq. Qed.

Lemma finite_not_nan (x : float) :
  PrimFloat.is_finite x = true -> (x =? x) = true.
Proof.
  unfold PrimFloat.is_finite, PrimFloat.is_nan.
  destruct (x =? x); [reflexivity | discriminate].
Qed.

Lemma Prim2SF_zero : Prim2SF 0 = S754_zero false.
Proof. reflexivity. Qed.

(** A number above 0 is a positive finite number or the positive infinity. *)
Lemma gt_zero_inv (y : float) :
  (0 <? y) = true ->
  (exists m e, Prim2SF y = S754_finite false m e) \/
  Prim2SF y = S754_infinity false.
Proof.
  rewrite ltb_spec, Prim2SF_zero.
  destruct (Prim2SF y) as [s | s | | s m e]; cbn; try discriminate.
  - destruct s; [discriminate | now right].
  - destruct s; [discriminate | left; eauto].
Qed.

(** Zero over a number above 0 is (positive) zero. *)
Lemma zero_div_pos (y : float) : (0 <? y) = true -> 0 / y = 0.
Proof.
  intros Hy. apply Prim2SF_inj. rewrite div_spec, Prim2SF_zero.
  destruct (gt_zero_inv y Hy) as [(m & e & ->) | ->]; reflexivity.
Qed.

(** A number that [===] 0 (either zero) is not above 0. *)
Lemma eqb_zero_not_gt (v : float) : (v =? 0) = true -> (0 <? v) = false.
Proof.
  rewrite FloatAxioms.eqb_spec, ltb_spec, Prim2SF_zero.
  destruct (Prim2SF v) as [s | s | | s m e]; cbn; try discriminate; try reflexivity.
  - destruct s; discriminate.
  - destruct s; discriminate.
Qed.

End FloatFacts.

(** ** The normalizer *)

Section Normalizer.

Local Open Scope float_scope.

Lemma toNum_finite (v : Js.value) : Js.Number_isFinite (toNum v 0) = true.
Proof.
  destruct v as [| | b | n | s | items | props]; cbn; try reflexivity.
  destruct (Js.Number_isFinite n) eqn:Hn; [exact Hn | reflexivity].
Qed.

Lemma toNum_of_finite (n fallback : float) :
  Js.Number_isFinite n = true -> toNum (Js.Number n) fallback = n.
Proof. intros Hn. cbn. now rewrite Hn. Qed.

Lemma toNum_of_non_finite (n fallback : float) :
  Js.Number_isFinite n = false -> toNum (Js.Number n) fallback = fallback.
Proof. intros Hn. cbn. now rewrite Hn. Qed.

(** Coercing a coerced number again changes nothing. *)
Lemma toNum_idem (v : Js.value) : toNum (Js.Number (toNum v 0)) 0 = toNum v 0.
Proof. apply toNum_of_finite, toNum_finite. Qed.

Lemma toNum_object (maybe : Js.value) (fallback : float) :
  Js.is_object maybe = true -> toNum maybe fallback = fallback.
Proof. destruct maybe; cbn; congruence. Qed.

(** The two branches of [unwrapValPrev] on an object (or array). *)
Lemma unwrapValPrev_object (maybe : Js.value) :
  Js.is_object maybe = true ->
  unwrapValPrev maybe =
    if Js.strict_neq (toNum (Js.get maybe "value") 0) 0
       || Js.strict_neq (toNum (Js.get maybe "prev") 0) 0
    then {| value := toNum (Js.get maybe "value") 0;
            prev := toNum (Js.get maybe "prev") 0 |}
    else {| value := 0; prev := 0 |}.
Proof.
  intros Hobj. unfold unwrapValPrev. rewrite Hobj.
  now rewrite (toNum_object _ _ Hobj).
Qed.

Lemma unwrapValPrev_not_object (maybe : Js.value) :
  Js.is_object maybe = false ->
  unwrapValPrev maybe = {| value := toNum maybe 0; prev := 0 |}.
Proof. intros Hobj. unfold unwrapValPrev. now rewrite Hobj. Qed.

(** Both fields of a resolved metric are finite. *)
Lemma unwrapValPrev_finite (maybe : Js.value) :
  Js.Number_isFinite (value (unwrapValPrev maybe)) = true /\
  Js.Number_isFinite (prev (unwrapValPrev maybe)) = true.
Proof.
  destruct (Js.is_object maybe) eqn:Hobj.
  - rewrite (unwrapValPrev_object _ Hobj).
    destruct (_ || _); cbn [value prev];
      split; try apply toNum_finite; reflexivity.
  - rewrite (unwrapValPrev_not_object _ Hobj). cbn [value prev].
    split; [apply toNum_finite | reflexivity].
Qed.

(** The second coercion in [normalizeToStatsData] is the identity. *)
Lemma toNum_unwrapped_value (maybe : Js.value) :
  toNum (Js.Number (value (unwrapValPrev maybe))) 0 = value (unwrapValPrev maybe).
Proof. apply toNum_of_finite, unwrapValPrev_finite. Qed.

Lemma toNum_unwrapped_prev (maybe : Js.value) :
  toNum (Js.Number (prev (unwrapValPrev maybe))) 0 = prev (unwrapValPrev maybe).
Proof. apply toNum_of_finite, unwrapValPrev_finite. Qed.

(** The snapshot, field by field. *)
Lemma normalize_count (k : MetricKey) (raw : Js.value) :
  is_count k = true ->
  metric_of k (normalizeToStatsData raw) = unwrapValPrev (Js.get raw (key_name k)).
Proof. destruct k; cbn; intros Hk; try reflexivity; discriminate. Qed.

Lemma normalize_totaltime (raw : Js.value) :
  totaltime (normalizeToStatsData raw) =
    {| value := avgMinutes (value (unwrapValPrev (Js.get raw "visits")))
                           (value (unwrapValPrev (Js.get raw "totaltime")));
       prev := avgMinutes (prev (unwrapValPrev (Js.get raw "visits")))
                          (prev (unwrapValPrev (Js.get raw "totaltime"))) |}.
Proof.
  unfold normalizeToStatsData. cbn [totaltime].
  now rewrite !toNum_unwrapped_value, !toNum_unwrapped_prev.
Qed.

(** The four count metrics of a snapshot are finite, whatever the payload. *)
Lemma count_metrics_finite (k : MetricKey) (raw : Js.value) :
  is_count k = true ->
  Js.Number_isFinite (value (metric_of k (normalizeToStatsData raw))) = true
  /\ Js.Number_isFinite (prev (metric_of k (normalizeToStatsData raw))) = true.
Proof.
  intros Hk. rewrite (normalize_count _ _ Hk). apply unwrapValPrev_finite.
Qed.

(** No seconds, no minutes: the average of a zero total is zero. *)
Lemma avgMinutes_zero (visitCount : float) : avgMinutes visitCount 0 = 0.
Proof.
  unfold avgMinutes, Js.gt. destruct (0 <? visitCount) eqn:Hv; [| reflexivity].
  now rewrite (zero_div_pos _ Hv).
Qed.

Lemma avgMinutes_not_gt (visitCount totalSeconds : float) :
  Js.gt visitCount 0 = false -> avgMinutes visitCount totalSeconds = 0.
Proof. intros Hv. unfold avgMinutes. now rewrite Hv. Qed.

End Normalizer.

Section NormalizerClaims.

Local Open Scope float_scope.

(** C1 (amended): a numeric field that is NaN or an infinity is coerced to 0
    before any arithmetic: the bare number, and a metric supplied as that
    number, or as an object with that number as its [value] or [prev], has 0
    there in the normalized snapshot, for each of the five metrics. A finite
    number, negative ones included, is not coerced: [toNum] keeps it. *)
Theorem C1_only_non_finite_coerced (n m : float) :
  Js.Number_isFinite n = false ->
  Js.Number_isFinite m = true ->
  toNum (Js.Number n) 0 = 0
  /\ (forall k raw,
        Js.get raw (key_name k) = Js.Number n ->
        metric_of k (normalizeToStatsData raw) = {| value := 0; prev := 0 |})
  /\ (forall k raw props,
        Js.get raw (key_name k) = Js.Object props ->
        (props !! "value" = Some (Js.Number n) ->
         value (metric_of k (normalizeToStatsData raw)) = 0)
        /\ (props !! "prev" = Some (Js.Number n) ->
            prev (metric_of k (normalizeToStatsData raw)) = 0))
  /\ toNum (Js.Number m) 0 = m.
Proof.
  intros Hn Hm.
  assert (Hbare : unwrapValPrev (Js.Number n) = {| value := 0; prev := 0 |}).
  { rewrite unwrapValPrev_not_object by reflexivity.
    now rewrite (toNum_of_non_finite _ _ Hn). }
  assert (Hobj : forall props,
             (props !! "value" = Some (Js.Number n) ->
              value (unwrapValPrev (Js.Object props)) = 0)
             /\ (props !! "prev" = Some (Js.Number n) ->
                 prev (unwrapValPrev (Js.Object props)) = 0)).
  { intros props. rewrite unwrapValPrev_object by reflexivity. cbn [Js.get].
    split; intros ->; cbn [default]; rewrite (toNum_of_non_finite _ _ Hn);
      destruct (_ || _) eqn:Hne; cbn [value prev]; reflexivity. }
  split; [apply (toNum_of_non_finite _ _ Hn) |].
  split; [| split; [| apply (toNum_of_finite _ _ Hm)]].
  - intros k raw Hk. destruct (is_count k) eqn:Hc.
    + now rewrite (normalize_count _ _ Hc), Hk.
    + destruct k; try discriminate. cbn [key_name metric_of] in *.
      rewrite normalize_totaltime, Hk, Hbare. cbn [value prev].
      now rewrite !avgMinutes_zero.
  - intros k raw props Hk. destruct (is_count k) eqn:Hc.
    + rewrite (normalize_count _ _ Hc), Hk. apply Hobj.
    + destruct k; try discriminate. cbn [key_name metric_of] in *.
      rewrite normalize_totaltime, Hk. cbn [value prev].
      destruct (Hobj props) as [Hv Hp].
      split; intros Hprop.
      * rewrite (Hv Hprop). apply avgMinutes_zero.
      * rewrite (Hp Hprop). apply avgMinutes_zero.
Qed.

(** C1, at NaN for [n] and -5 for [m]: NaN under [pageviews] gives the
    all-zero metric, and -5 is kept. *)
Lemma C1_only_non_finite_coerced_witness :
  metric_of Pageviews
    (normalizeToStatsData (Js.obj [("pageviews", Js.Number nan)]))
  = {| value := 0; prev := 0 |}
  /\ toNum (Js.Number (-5)) 0 = -5.
Proof.
  destruct (C1_only_non_finite_coerced nan (-5) eq_refl eq_refl)
    as (_ & Hbare & _ & Hkept).
  split; [| exact Hkept].
  apply (Hbare Pageviews). reflexivity.
Defined.

(** C1 as stated fails on negative numbers: -5, supplied bare under
    [pageviews] or as the [value] and -3 as the [prev] of [visits], comes
    out as it went in, and it is not 0. *)
Lemma C1_negative_number_kept :
  Js.gt 0 (-5) = true
  /\ metric_of Pageviews
       (normalizeToStatsData (Js.obj [("pageviews", Js.Number (-5))]))
     = {| value := -5; prev := 0 |}
  /\ metric_of Visits
       (normalizeToStatsData
          (Js.obj [("visits", Js.obj [("value", Js.Number (-5));
                                      ("prev", Js.Number (-3))])]))
     = {| value := -5; prev := -3 |}
  /\ Js.strict_neq (-5) 0 = true
  /\ Js.strict_neq (-3) 0 = true.
Proof. repeat split; vm_compute; reflexivity. Qed.

(** C2: the normalized [totaltime] is the resolved seconds over the
    normalized visits over 60 where the visits are above 0, and 0 where they
    are not, for [value] and for [prev] alike; 1200 and 600 seconds over 10
    and 5 visits are 2 and 2 minutes; and a [visits.value] of 0 gives a
    [totaltime.value] of 0 whatever the seconds. *)
Theorem C2_totaltime_average_minutes (raw : Js.value) :
  let s := normalizeToStatsData raw in
  let seconds := unwrapValPrev (Js.get raw "totaltime") in
  value (totaltime s)
  = (if Js.gt (value (visits s)) 0
     then value seconds / value (visits s) / 60 else 0)
  /\ prev (totaltime s)
     = (if Js.gt (prev (visits s)) 0
        then prev seconds / prev (visits s) / 60 else 0)
  /\ ((value (visits s) =? 0) = true -> value (totaltime s) = 0)
  /\ ((prev (visits s) =? 0) = true -> prev (totaltime s) = 0)
  /\ totaltime
       (normalizeToStatsData
          (Js.obj [("totaltime", Js.obj [("value", Js.Number 1200);
                                         ("prev", Js.Number 600)]);
                   ("visits", Js.obj [("value", Js.Number 10);
                                      ("prev", Js.Number 5)])]))
     = {| value := 2; prev := 2 |}.
Proof.
  cbv zeta. rewrite normalize_totaltime. cbn [value prev visits normalizeToStatsData].
  repeat split.
  - intros Hz. apply avgMinutes_not_gt, eqb_zero_not_gt, Hz.
  - intros Hz. apply avgMinutes_not_gt, eqb_zero_not_gt, Hz.
Qed.

(** C2, at 0 visits and 1200 seconds in the current period. *)
Lemma C2_totaltime_average_minutes_witness :
  value (totaltime
           (normalizeToStatsData
              (Js.obj [("totaltime", Js.Number 1200);
                       ("visits", Js.Number 0)]))) = 0.
Proof.
  destruct (C2_totaltime_average_minutes
              (Js.obj [("totaltime", Js.Number 1200); ("visits", Js.Number 0)]))
    as (_ & _ & Hzero & _).
  apply Hzero. reflexivity.
Defined.

(** C3 fails on the code: with half a visit and 2^1023 seconds, both finite,
    the quotient overflows, and the normalized [totaltime.value] is
    [Infinity]. *)
Theorem C3_totaltime_overflows :
  let raw := Js.obj [("visits", Js.Number 0.5);
                     ("totaltime", Js.Number 0x1p1023)] in
  Js.Number_isFinite 0.5 = true
  /\ Js.Number_isFinite 0x1p1023 = true
  /\ visits (normalizeToStatsData raw) = {| value := 0.5; prev := 0 |}
  /\ totaltime (normalizeToStatsData raw) = {| value := infinity; prev := 0 |}
  /\ Js.Number_isFinite (value (totaltime (normalizeToStatsData raw))) = false.
Proof. cbv zeta. repeat split; vm_compute; reflexivity. Qed.

(** C4 (amended): a finite bare number [n] resolves to [{value: n, prev: 0}];
    that is the normalized metric for every metric but [totaltime]; under
    [totaltime], [n] is the seconds of the current period, the normalized
    [value] is their average in minutes per visit, and [prev] is 0. *)
Theorem C4_bare_number (n : float) :
  Js.Number_isFinite n = true ->
  unwrapValPrev (Js.Number n) = {| value := n; prev := 0 |}
  /\ (forall k raw,
        is_count k = true ->
        Js.get raw (key_name k) = Js.Number n ->
        metric_of k (normalizeToStatsData raw) = {| value := n; prev := 0 |})
  /\ (forall raw,
        Js.get raw "totaltime" = Js.Number n ->
        totaltime (normalizeToStatsData raw)
        = {| value := avgMinutes (value (visits (normalizeToStatsData raw))) n;
             prev := 0 |}).
Proof.
  intros Hn.
  assert (Hbare : unwrapValPrev (Js.Number n) = {| value := n; prev := 0 |}).
  { rewrite unwrapValPrev_not_object by reflexivity.
    now rewrite (toNum_of_finite _ _ Hn). }
  split; [exact Hbare |]. split.
  - intros k raw Hc Hk. now rewrite (normalize_count _ _ Hc), Hk.
  - intros raw Hk. rewrite normalize_totaltime, Hk, Hbare.
    cbn [value prev visits normalizeToStatsData].
    now rewrite avgMinutes_zero.
Qed.

(** C4, at 42 under [pageviews]. *)
Lemma C4_bare_number_witness :
  pageviews (normalizeToStatsData (Js.obj [("pageviews", Js.Number 42)]))
  = {| value := 42; prev := 0 |}.
Proof.
  destruct (C4_bare_number 42 eq_refl) as (_ & Hcount & _).
  apply (Hcount Pageviews); reflexivity.
Defined.

(** C4 as stated fails for [totaltime]: supplied as the bare number 120, with
    2 visits, its normalized metric is [{value: 1, prev: 0}], not
    [{value: 120, prev: 0}]. *)
Lemma C4_bare_totaltime_is_averaged :
  let raw := Js.obj [("totaltime", Js.Number 120); ("visits", Js.Number 2)] in
  Js.get raw (key_name Totaltime) = Js.Number 120
  /\ Js.Number_isFinite 120 = true
  /\ metric_of Totaltime (normalizeToStatsData raw) = {| value := 1; prev := 0 |}
  /\ Js.strict_neq 1 120 = true.
Proof. cbv zeta. repeat split; vm_compute; reflexivity. Qed.

(** C9 (amended): on an object, [unwrapValPrev] returns a pair whose fields
    are [===] to the coerced fields [toNum(value)] and [toNum(prev)]; it is
    exactly that pair when one of them is not [=== 0], so a nonzero [prev]
    is kept beside a [value] that coerces to 0; and it is exactly
    [{value: 0, prev: 0}] when both are [=== 0], where a negative zero among
    them loses its sign. *)
Theorem C9_unwrap_object (maybe : Js.value) :
  Js.is_object maybe = true ->
  let v := toNum (Js.get maybe "value") 0 in
  let p := toNum (Js.get maybe "prev") 0 in
  (v =? value (unwrapValPrev maybe)) = true
  /\ (p =? prev (unwrapValPrev maybe)) = true
  /\ (Js.strict_neq v 0 || Js.strict_neq p 0 = true ->
      unwrapValPrev maybe = {| value := v; prev := p |})
  /\ (Js.strict_neq v 0 || Js.strict_neq p 0 = false ->
      unwrapValPrev maybe = {| value := 0; prev := 0 |})
  /\ (Js.strict_neq p 0 = true -> prev (unwrapValPrev maybe) = p).
Proof.
  intros Hobj v p. rewrite (unwrapValPrev_object _ Hobj). fold v p.
  assert (Hv : (v =? v) = true) by apply finite_not_nan, toNum_finite.
  assert (Hp : (p =? p) = true) by apply finite_not_nan, toNum_finite.
  unfold Js.strict_neq.
  destruct (v =? 0) eqn:Hv0, (p =? 0) eqn:Hp0; cbn [negb orb value prev];
    repeat split; intros; try assumption; try reflexivity; discriminate.
Qed.

(** C9, at [{value: 0, prev: 7}]: the [prev] of 7 is kept. *)
Lemma C9_unwrap_object_witness :
  unwrapValPrev (Js.obj [("value", Js.Number 0); ("prev", Js.Number 7)])
  = {| value := 0; prev := 7 |}.
Proof.
  destruct (C9_unwrap_object
              (Js.obj [("value", Js.Number 0); ("prev", Js.Number 7)]) eq_refl)
    as (_ & _ & Hkept & _).
  apply Hkept. reflexivity.
Defined.

(** C9 as stated fails at [{value: -0}]: the coerced pair is
    [{value: -0, prev: 0}], the fall-through returns [{value: 0, prev: 0}],
    and the two zeros are different numbers (their reciprocals have
    different signs). *)
Lemma C9_negative_zero_loses_sign :
  let maybe := Js.obj [("value", Js.Number (-0))] in
  Js.is_object maybe = true
  /\ toNum (Js.get maybe "value") 0 = -0
  /\ toNum (Js.get maybe "prev") 0 = 0
  /\ unwrapValPrev maybe = {| value := 0; prev := 0 |}
  /\ unwrapValPrev maybe
     <> {| value := toNum (Js.get maybe "value") 0;
           prev := toNum (Js.get maybe "prev") 0 |}.
Proof.
  cbv zeta. repeat split; try (vm_compute; reflexivity).
  intros Heq. apply (f_equal value) in Heq. vm_compute in Heq.
  revert Heq. apply (float_neq_by (fun x => 1 / x <? 0)).
  vm_compute. discriminate.
Qed.

(** C10: when the raw [visits] is a bare number or is absent, the normalized
    [totaltime.prev] is 0, whatever the raw [totaltime]. *)
Theorem C10_totaltime_prev_without_previous_visits (raw : Js.value) :
  Js.get raw "visits" = Js.Undefined
  \/ (exists n, Js.get raw "visits" = Js.Number n) ->
  prev (visits (normalizeToStatsData raw)) = 0
  /\ prev (totaltime (normalizeToStatsData raw)) = 0.
Proof.
  intros Hvisits.
  assert (Hprev : prev (unwrapValPrev (Js.get raw "visits")) = 0).
  { destruct Hvisits as [-> | [n ->]]; reflexivity. }
  split; [exact Hprev |].
  rewrite normalize_totaltime. cbn [prev]. rewrite Hprev.
  now apply avgMinutes_not_gt.
Qed.

(** C10, at 10 visits as a bare number and 600 seconds in the previous
    period. *)
Lemma C10_totaltime_prev_without_previous_visits_witness :
  prev (totaltime
          (normalizeToStatsData
             (Js.obj [("visits", Js.Number 10);
                      ("totaltime", Js.obj [("value", Js.Number 1200);
                                            ("prev", Js.Number 600)])]))) = 0.
Proof.
  refine (proj2 (C10_totaltime_prev_without_previous_visits _ _)).
  right. exists 10%float. reflexivity.
Defined.

End NormalizerClaims.

(** ** The load life cycle *)

(** Walks a task tree in a goal about it: settles each await both ways,
    reads the flag both ways, branches on the response's status. *)
Ltac walk_task :=
  repeat (cbn;
          match goal with
          | |- True => exact I
          | |- true = true => reflexivity
          | |- _ /\ _ => split
          | |- forall c : Completion _, _ => intros [? | ?]
          | |- forall b : bool, _ => intros []
          | |- context [Fetch.ok ?res] => destruct (Fetch.ok res)
          end).

Section LifeCycle.

Variable env : Env.

(** [load] calls the setter only under its [mounted] checks, and catches
    whatever its [try] block throws. *)
Lemma load_guarded : guarded true (load env).
Proof. walk_task. Qed.

Lemma load_never_throws : never_throws (load env).
Proof. walk_task. Qed.

(** Running a guarded task to its next await keeps the flag, leaves a task
    that is guarded whether or not the flag is cleared meanwhile, and, with
    the flag cleared already, calls no setter. *)
Lemma advance_guarded (t : Async unit) :
  forall w : Widget,
    guarded (mounted w) t ->
    mounted (advance t w) = mounted w
    /\ guarded (mounted w) (task (advance t w))
    /\ guarded false (task (advance t w))
    /\ (mounted w = false ->
        setStats_calls (advance t w) = setStats_calls w
        /\ stats (advance t w) = stats w).
Proof.
  induction t as [a | e | url k IH | res k IH | l k IH | k IH | s k IH];
    intros w Hg; cbn [advance].
  - cbn. auto.
  - cbn. auto.
  - cbn in *. repeat split; intros; try apply Hg.
  - cbn in *. repeat split; intros; try apply Hg.
  - apply (IH (logged l w)), Hg.
  - apply IH, Hg.
  - destruct Hg as [Hm Hg].
    destruct (IH (stats_set s w) Hg) as (H1 & H2 & H3 & _).
    repeat split; try assumption; congruence.
Qed.

Lemma advance_never_throws (t : Async unit) :
  forall w : Widget, never_throws t -> never_throws (task (advance t w)).
Proof.
  induction t as [a | e | url k IH | res k IH | l k IH | k IH | s k IH];
    intros w Hn; cbn [advance]; try exact Hn.
  - apply IH, Hn.
  - apply IH, Hn.
  - apply IH, Hn.
Qed.

Lemma mount_well_behaved : well_behaved (mount env).
Proof.
  unfold well_behaved, mount.
  destruct (advance_guarded (load env)
              {| stats := None; mounted := true; task := Ret tt;
                 console := []; setStats_calls := [] |} load_guarded)
    as (Hm & Hg & Hg' & _).
  rewrite Hm. split; [exact Hg | split; [exact Hg' |]].
  apply advance_never_throws, load_never_throws.
Qed.

(** One event keeps the invariant; the flag only ever goes from set to
    cleared; and with the flag cleared no event calls the setter. *)
Lemma step_well_behaved (w : Widget) (ev : Event) :
  well_behaved w ->
  well_behaved (step w ev)
  /\ (mounted w = false ->
      mounted (step w ev) = false
      /\ setStats_calls (step w ev) = setStats_calls w
      /\ stats (step w ev) = stats w).
Proof.
  intros (Hg & Hg' & Hn). unfold step.
  destruct ev as [c | c |].
  - destruct (task w) as [a | e | url k | res k | l k | k | s k] eqn:Ht;
      try (split; [unfold well_behaved; rewrite Ht; now auto | now auto]).
    destruct (advance_guarded (k c) w (proj1 (Hg c))) as (H1 & H2 & H3 & H4).
    split.
    + unfold well_behaved. rewrite H1. split; [exact H2 | split; [exact H3 |]].
      apply advance_never_throws, Hn.
    + intros Hoff. rewrite H1. split; [exact Hoff | now apply H4].
  - destruct (task w) as [a | e | url k | res k | l k | k | s k] eqn:Ht;
      try (split; [unfold well_behaved; rewrite Ht; now auto | now auto]).
    destruct (advance_guarded (k c) w (proj1 (Hg c))) as (H1 & H2 & H3 & H4).
    split.
    + unfold well_behaved. rewrite H1. split; [exact H2 | split; [exact H3 |]].
      apply advance_never_throws, Hn.
    + intros Hoff. rewrite H1. split; [exact Hoff | now apply H4].
  - split; [| now auto].
    unfold well_behaved, cleanup. cbn. auto.
Qed.

Lemma run_well_behaved (evs : list Event) :
  forall w : Widget,
    well_behaved w ->
    well_behaved (run w evs)
    /\ (mounted w = false ->
        mounted (run w evs) = false
        /\ setStats_calls (run w evs) = setStats_calls w
        /\ stats (run w evs) = stats w).
Proof.
  induction evs as [| ev evs IH]; intros w Hw; cbn [run foldl].
  - auto.
  - destruct (step_well_behaved w ev Hw) as [Hw' Hoff'].
    destruct (IH _ Hw') as [Hw'' Hoff'']. fold (run (step w ev) evs) in *.
    split; [exact Hw'' |].
    intros Hoff. destruct (Hoff' Hoff) as (H1 & H2 & H3).
    destruct (Hoff'' H1) as (H4 & H5 & H6).
    repeat split; congruence.
Qed.

Lemma run_app (w : Widget) (evs evs' : list Event) :
  run w (evs ++ evs') = run (run w evs) evs'.
Proof. unfold run. apply foldl_app. Qed.

(** A response that is [ok] with a body that parses takes the widget to
    [Ready] with the normalized body. *)
Lemma successful_load (res : Fetch.Response) (raw : Js.value) :
  Fetch.ok res = true ->
  state_of (run (mount env) (events_of (Responds res (Normal raw))))
  = Ready (normalizeToStatsData raw).
Proof. intros Hok. cbn. rewrite Hok. reflexivity. Qed.

(** C5: the widget starts in [Loading]; after a load attempt that fails (the
    fetch throws, the status is not 2xx, or parsing the body throws) it is
    in [Ready] with the all-zero snapshot, set by one call of the setter,
    and [load()] has completed without throwing: nothing is propagated. *)
Theorem C5_failed_load_shows_zeroes (o : Outcome) :
  failed o = true ->
  state_of (mount env) = Loading
  /\ state_of (run (mount env) (events_of o)) = Ready zeroStats
  /\ setStats_calls (run (mount env) (events_of o)) = [zeroStats]
  /\ task (run (mount env) (events_of o)) = Ret tt.
Proof.
  intros Hfailed. split; [reflexivity |].
  destruct o as [e | res body]; cbn in *.
  - repeat split.
  - destruct (Fetch.ok res) eqn:Hok; cbn in *.
    + destruct body as [raw | e]; [discriminate |].
      repeat split.
    + repeat split.
Qed.

(** C6: once the cleanup has run, whatever happens afterwards (the fetch or
    the body settling, either way) calls the setter no more and leaves the
    state as it was; after a cleanup that comes before the fetch resolves the
    setter has not been called at all and the state is still [null]; the
    cleanup only clears the flag; and [load()] never ends by throwing. *)
Theorem C6_no_state_update_after_cleanup (before after : list Event) :
  let w := run (mount env) (before ++ [Cleanup]) in
  mounted w = false
  /\ setStats_calls (run w after) = setStats_calls w
  /\ stats (run w after) = stats w
  /\ setStats_calls (run (mount env) (Cleanup :: after)) = []
  /\ stats (run (mount env) (Cleanup :: after)) = None
  /\ step (run (mount env) before) Cleanup = cleanup (run (mount env) before)
  /\ (forall e, task (run w after) <> Raise e).
Proof.
  cbv zeta. rewrite run_app.
  destruct (run_well_behaved before _ mount_well_behaved) as [Hbefore _].
  destruct (step_well_behaved _ Cleanup Hbefore) as [Hcleanup _].
  change (run (run (mount env) before) [Cleanup])
    with (step (run (mount env) before) Cleanup).
  set (w := step (run (mount env) before) Cleanup) in *.
  assert (Hoff : mounted w = false) by reflexivity.
  destruct (run_well_behaved after w Hcleanup) as [Hafter Hkept].
  destruct (Hkept Hoff) as (_ & Hcalls & Hstats).
  split; [exact Hoff |]. split; [exact Hcalls |]. split; [exact Hstats |].
  destruct (step_well_behaved _ Cleanup mount_well_behaved) as [Hfirst _].
  destruct (run_well_behaved after _ Hfirst) as [_ Hnone].
  destruct (Hnone eq_refl) as (_ & Hcalls0 & Hstats0).
  split; [exact Hcalls0 |]. split; [exact Hstats0 |].
  split; [reflexivity |].
  intros e He. destruct Hafter as (_ & _ & Hn). rewrite He in Hn. exact Hn.
Qed.

End LifeCycle.

(** C5, in the browser, at a response with status 500. *)
Lemma C5_failed_load_shows_zeroes_witness :
  state_of
    (run (mount {| window_defined := true; NEXT_PUBLIC_BASE_URL := None |})
         [FetchSettled
            (Normal {| Fetch.status := 500;
                       Fetch.statusText := "Internal Server Error" |})])
  = Ready zeroStats.
Proof.
  exact (proj1 (proj2
    (C5_failed_load_shows_zeroes
       {| window_defined := true; NEXT_PUBLIC_BASE_URL := None |}
       (Responds {| Fetch.status := 500;
                    Fetch.statusText := "Internal Server Error" |}
                 (Normal Js.Null))
       eq_refl))).
Defined.

(** ** The centre label *)

Section CentreLabel.

Local Open Scope float_scope.

(** C7: in the [Ready] state with snapshot [s], the widget renders the
    chart, and for a view box with [cx] and [cy] the label is a text centred
    there with two spans: the number [s.visits.value], then, 24 below, the
    caption "Visits". *)
Theorem C7_centre_label_shows_visits (w : Widget) (s : StatsData) (cx cy : float) :
  state_of w = Ready s ->
  exists pie text number caption,
    view w = PieChart pie
    /\ Chart.label_content pie
         (Some {| Chart.cx := Some cx; Chart.cy := Some cy |}) = Some text
    /\ Chart.x text = cx /\ Chart.y text = cy
    /\ Chart.textAnchor text = "middle"
    /\ Chart.tspans text = [number; caption]
    /\ Chart.child number = Chart.NumberChild (value (visits s))
    /\ Chart.tspan_x number = cx /\ Chart.tspan_y number = cy
    /\ Chart.child caption = Chart.TextChild "Visits"
    /\ Chart.tspan_x caption = cx
    /\ Chart.tspan_y caption = or_zero cy + 24.
Proof.
  unfold state_of, view. destruct (stats w) as [s' |]; [| discriminate].
  intros [= ->]. cbn. repeat eexists.
Qed.

(** C7, after a successful load of 100 page views and 7 visits: the label
    shows 7. *)
Lemma C7_centre_label_shows_visits_witness :
  let w :=
    run (mount {| window_defined := true; NEXT_PUBLIC_BASE_URL := None |})
        (events_of
           (Responds {| Fetch.status := 200; Fetch.statusText := "OK" |}
                     (Normal (Js.obj [("pageviews", Js.Number 100);
                                      ("visits", Js.Number 7)])))) in
  exists pie text number caption,
    view w = PieChart pie
    /\ Chart.label_content pie
         (Some {| Chart.cx := Some 125; Chart.cy := Some 125 |}) = Some text
    /\ Chart.tspans text = [number; caption]
    /\ Chart.child number = Chart.NumberChild 7
    /\ Chart.child caption = Chart.TextChild "Visits".
Proof.
  cbv zeta.
  destruct (C7_centre_label_shows_visits
              (run (mount {| window_defined := true; NEXT_PUBLIC_BASE_URL := None |})
                   (events_of
                      (Responds {| Fetch.status := 200; Fetch.statusText := "OK" |}
                                (Normal (Js.obj [("pageviews", Js.Number 100);
                                                 ("visits", Js.Number 7)])))))
              (normalizeToStatsData
                 (Js.obj [("pageviews", Js.Number 100); ("visits", Js.Number 7)]))
              125 125 eq_refl)
    as (pie & text & number & caption & Hview & Hlabel & _ & _ & _ & Hspans
        & Hnumber & _ & _ & Hcaption & _).
  exists pie, text, number, caption.
  repeat split; assumption.
Defined.

End CentreLabel.

(** ** The route handlers *)

Section RouteClaims.

Context {Body : Type} (JSON_stringify : Js.value -> Body).

(** With a body, [new Response] succeeds exactly on the statuses it
    accepts. *)
Lemma new_Response_accepted (text : Body) (status : Z) :
  Route.accepts_status status = true ->
  Route.new_Response (Some text) status
  = Normal {| Route.body := Some text;
              Route.status := Route.unsigned_short status |}.
Proof.
  unfold Route.accepts_status, Route.new_Response. intros Hs.
  apply andb_prop in Hs as [Hrange Hnull]. rewrite Hrange. cbn [negb].
  apply negb_true_iff in Hnull. now rewrite Hnull.
Qed.

Lemma new_Response_refused (text : Body) (status : Z) :
  Route.accepts_status status = false ->
  exists thrown, Route.new_Response (Some text) status = Throw thrown.
Proof.
  unfold Route.accepts_status, Route.new_Response. intros Hs.
  destruct ((200 <=? Route.unsigned_short status)%Z
            && (Route.unsigned_short status <=? 599)%Z); cbn [negb andb] in *.
  - apply negb_false_iff in Hs. rewrite Hs. eauto.
  - eauto.
Qed.

(** Status 200 is accepted with any body, or none. *)
Lemma new_Response_200 (body : option Body) :
  Route.new_Response body 200
  = Normal {| Route.body := body; Route.status := 200 |}.
Proof. destruct body; reflexivity. Qed.

Lemma unsigned_short_id (status : Z) :
  (0 <= status < 65536)%Z -> Route.unsigned_short status = status.
Proof. intros Hs. unfold Route.unsigned_short. now apply Z.mod_small. Qed.

(** C8 (amended): each handler answers with status 200 and the serialized
    upstream data when the client reports [ok]; with the error envelope and
    the upstream status when it reports not [ok] and the status is one that
    [new Response] accepts with a body (200 to 599, other than 204, 205 and
    304); and with the error envelope and status 500 when an exception is
    thrown: by the client's call, or by [new Response] for any other
    upstream status. *)
Theorem C8_handlers_relay_the_client
    (client : Umami.Client) (now : float) (r : Umami.ApiResponse) (e : Js.value) :
  let stats_call := Umami.getWebsiteStats client Route.websiteId (Route.metricsData now) in
  let pageviews_call :=
    Umami.getWebsitePageviews client Route.websiteId (Route.pageviewsData now) in
  let envelope message :=
    Some (JSON_stringify (Js.obj [("error", Js.String message)])) in
  ((stats_call = Normal r -> Umami.ok r = true ->
    Route.GET_stats JSON_stringify client now
    = Normal {| Route.body := Route.stringified JSON_stringify (Umami.data r);
                Route.status := 200 |})
   /\ (stats_call = Normal r -> Umami.ok r = false ->
       Route.accepts_status (Umami.status r) = true ->
       Route.GET_stats JSON_stringify client now
       = Normal {| Route.body := envelope "Failed to fetch website metrics";
                   Route.status := Route.unsigned_short (Umami.status r) |})
   /\ (stats_call = Normal r -> Umami.ok r = false ->
       Route.accepts_status (Umami.status r) = false ->
       Route.GET_stats JSON_stringify client now
       = Normal {| Route.body := envelope "Failed to fetch website metrics";
                   Route.status := 500 |})
   /\ (stats_call = Throw e ->
       Route.GET_stats JSON_stringify client now
       = Normal {| Route.body := envelope "Failed to fetch website metrics";
                   Route.status := 500 |}))
  /\ ((pageviews_call = Normal r -> Umami.ok r = true ->
       Route.GET_pageviews JSON_stringify client now
       = Normal {| Route.body := Route.stringified JSON_stringify (Umami.data r);
                   Route.status := 200 |})
      /\ (pageviews_call = Normal r -> Umami.ok r = false ->
          Route.accepts_status (Umami.status r) = true ->
          Route.GET_pageviews JSON_stringify client now
          = Normal {| Route.body := envelope "Failed to fetch website pageviews";
                      Route.status := Route.unsigned_short (Umami.status r) |})
      /\ (pageviews_call = Normal r -> Umami.ok r = false ->
          Route.accepts_status (Umami.status r) = false ->
          Route.GET_pageviews JSON_stringify client now
          = Normal {| Route.body := envelope "Failed to fetch website pageviews";
                      Route.status := 500 |})
      /\ (pageviews_call = Throw e ->
          Route.GET_pageviews JSON_stringify client now
          = Normal {| Route.body := envelope "Failed to fetch website pageviews";
                      Route.status := 500 |}))
  /\ ((0 <= Umami.status r < 65536)%Z ->
      Route.unsigned_short (Umami.status r) = Umami.status r).
Proof.
  cbv zeta. unfold Route.GET_stats, Route.GET_pageviews.
  split; [| split; [| apply unsigned_short_id]].
  - split; [| split; [| split]].
    + intros -> Hok. cbn. rewrite Hok. cbn. now rewrite new_Response_200.
    + intros -> Hok Hs. cbn. rewrite Hok. cbn.
      now rewrite (new_Response_accepted _ _ Hs).
    + intros -> Hok Hs. cbn. rewrite Hok. cbn.
      now destruct (new_Response_refused
                      (JSON_stringify
                         (Js.obj [("error",
                                   Js.String "Failed to fetch website metrics")]))
                      _ Hs) as [thrown ->].
    + intros ->. reflexivity.
  - split; [| split; [| split]].
    + intros -> Hok. cbn. rewrite Hok. cbn. now rewrite new_Response_200.
    + intros -> Hok Hs. cbn. rewrite Hok. cbn.
      now rewrite (new_Response_accepted _ _ Hs).
    + intros -> Hok Hs. cbn. rewrite Hok. cbn.
      now destruct (new_Response_refused
                      (JSON_stringify
                         (Js.obj [("error",
                                   Js.String "Failed to fetch website pageviews")]))
                      _ Hs) as [thrown ->].
    + intros ->. reflexivity.
Qed.

End RouteClaims.

(** C8, with the values as the body, at a client whose stats call reports
    not [ok] with status 401: the stats handler answers 401 with the error
    envelope. *)
Lemma C8_handlers_relay_the_client_witness :
  let unauthorized :=
    {| Umami.ok := false; Umami.data := Js.Undefined;
       Umami.status := 401; Umami.error := Js.String "Unauthorized" |} in
  let client :=
    {| Umami.getWebsiteStats := fun _ _ => Normal unauthorized;
       Umami.getWebsitePageviews := fun _ _ => Throw (Js.String "offline") |} in
  Route.GET_stats (fun v => v) client 1700000000000
  = Normal
      {| Route.body :=
           Some (Js.obj [("error", Js.String "Failed to fetch website metrics")]);
         Route.status := 401 |}.
Proof.
  cbv zeta.
  destruct (C8_handlers_relay_the_client
              (fun v => v)
              {| Umami.getWebsiteStats :=
                   fun _ _ =>
                     Normal {| Umami.ok := false; Umami.data := Js.Undefined;
                               Umami.status := 401;
                               Umami.error := Js.String "Unauthorized" |};
                 Umami.getWebsitePageviews :=
                   fun _ _ => Throw (Js.String "offline") |}
              1700000000000
              {| Umami.ok := false; Umami.data := Js.Undefined;
                 Umami.status := 401; Umami.error := Js.String "Unauthorized" |}
              Js.Null)
    as [(_ & Hnot_ok & _) _].
  apply Hnot_ok; reflexivity.
Defined.

(** C8 as stated fails at an upstream status that [new Response] refuses:
    when the client reports not [ok] with status 304, the constructor throws
    inside the [try], and the stats handler answers 500, not 304; the same
    at status 0. *)
Lemma C8_refused_status_answers_500 :
  let not_modified :=
    {| Umami.ok := false; Umami.data := Js.Undefined;
       Umami.status := 304; Umami.error := Js.String "" |} in
  let no_status :=
    {| Umami.ok := false; Umami.data := Js.Undefined;
       Umami.status := 0; Umami.error := Js.String "" |} in
  let client r :=
    {| Umami.getWebsiteStats := fun _ _ => Normal r;
       Umami.getWebsitePageviews := fun _ _ => Normal r |} in
  let envelope :=
    Some (Js.obj [("error", Js.String "Failed to fetch website metrics")]) in
  Route.GET_stats (fun v => v) (client not_modified) 1700000000000
  = Normal {| Route.body := envelope; Route.status := 500 |}
  /\ Route.GET_stats (fun v => v) (client not_modified) 1700000000000
     <> Normal {| Route.body := envelope; Route.status := 304 |}
  /\ Route.GET_stats (fun v => v) (client no_status) 1700000000000
     = Normal {| Route.body := envelope; Route.status := 500 |}.
Proof.
  cbv zeta. split; [reflexivity | split; [| reflexivity]].
  intros Heq. discriminate Heq.
Qed.

(** ** More on the normalizer *)

Section NormalizerEdges.

Local Open Scope float_scope.

(** The snapshot is a function of the payload's five properties. *)
Lemma normalize_ext (raw raw' : Js.value) :
  (forall k, Js.get raw (key_name k) = Js.get raw' (key_name k)) ->
  normalizeToStatsData raw = normalizeToStatsData raw'.
Proof.
  intros Hsame. unfold normalizeToStatsData.
  pose proof (Hsame Pageviews) as Hp. pose proof (Hsame Visitors) as Hv.
  pose proof (Hsame Visits) as Hs. pose proof (Hsame Bounces) as Hb.
  pose proof (Hsame Totaltime) as Ht. cbn [key_name] in *.
  now rewrite Hp, Hv, Hs, Hb, Ht.
Qed.

Lemma normalize_undefined : normalizeToStatsData Js.Undefined = zeroStats.
Proof. reflexivity. Qed.

Lemma normalize_keyless (raw : Js.value) :
  (forall k, Js.get raw (key_name k) = Js.Undefined) ->
  normalizeToStatsData raw = zeroStats.
Proof.
  intros Hk. rewrite <- normalize_undefined. apply normalize_ext.
  intros k. now rewrite Hk.
Qed.

(** X1: a raw metric that is neither a number nor a plain object (undefined,
    null, a boolean, a string, numeric strings included, an array) resolves
    to [{value: 0, prev: 0}]; so does an object neither of whose [value] and
    [prev] is a number. *)
Theorem X1_non_numeric_metric_is_zero (maybe : Js.value) (props : gmap string Js.value) :
  ((forall n, maybe <> Js.Number n) ->
   (forall q, maybe <> Js.Object q) ->
   unwrapValPrev maybe = {| value := 0; prev := 0 |})
  /\ ((forall n, props !! "value" <> Some (Js.Number n)) ->
      (forall n, props !! "prev" <> Some (Js.Number n)) ->
      unwrapValPrev (Js.Object props) = {| value := 0; prev := 0 |}).
Proof.
  split.
  - intros Hnum Hobj.
    destruct maybe as [| | b | n | s | items | q]; try reflexivity.
    + now destruct (Hnum n).
    + now destruct (Hobj q).
  - intros Hv Hp. rewrite unwrapValPrev_object by reflexivity. cbn [Js.get].
    assert (Hv0 : toNum (default Js.Undefined (props !! "value")) 0 = 0).
    { destruct (props !! "value") as [[| | b | n | s | items | q] |];
        try reflexivity. now destruct (Hv n). }
    assert (Hp0 : toNum (default Js.Undefined (props !! "prev")) 0 = 0).
    { destruct (props !! "prev") as [[| | b | n | s | items | q] |];
        try reflexivity. now destruct (Hp n). }
    rewrite Hv0, Hp0. reflexivity.
Qed.

(** X1, at the string "42" and at the object [{value: "42", prev: true}]. *)
Lemma X1_non_numeric_metric_is_zero_witness :
  unwrapValPrev (Js.String "42") = {| value := 0; prev := 0 |}
  /\ unwrapValPrev (Js.obj [("value", Js.String "42"); ("prev", Js.Bool true)])
     = {| value := 0; prev := 0 |}.
Proof.
  destruct (X1_non_numeric_metric_is_zero
              (Js.String "42")
              (list_to_map [("value", Js.String "42"); ("prev", Js.Bool true)]))
    as [Hprim Hobj].
  split.
  - apply Hprim; intros x Hx; discriminate Hx.
  - apply Hobj; intros n Hn; vm_compute in Hn; discriminate Hn.
Defined.

(** X2: a payload with none of the five properties normalizes to the
    all-zero snapshot; every payload that is not a plain object (null,
    undefined, a number, a string, an array) is one. *)
Theorem X2_keyless_payload_is_all_zero (raw : Js.value) :
  ((forall k, Js.get raw (key_name k) = Js.Undefined) ->
   normalizeToStatsData raw = zeroStats)
  /\ ((forall props, raw <> Js.Object props) ->
      normalizeToStatsData raw = zeroStats).
Proof.
  split; [apply normalize_keyless |].
  intros Hobj. apply normalize_keyless. intros k.
  destruct raw as [| | b | n | s | items | props]; try reflexivity.
  now destruct (Hobj props).
Qed.

(** X2, at the proxy's error envelope. *)
Lemma X2_keyless_payload_is_all_zero_witness :
  normalizeToStatsData
    (Js.obj [("error", Js.String "Failed to fetch website metrics")])
  = zeroStats.
Proof.
  apply (proj1 (X2_keyless_payload_is_all_zero
                  (Js.obj [("error", Js.String "Failed to fetch website metrics")]))).
  intros []; reflexivity.
Defined.

(** X3: properties other than the five metrics are ignored: adding one to
    the payload, or removing one, leaves the snapshot as it is. *)
Theorem X3_unknown_keys_ignored
    (props : gmap string Js.value) (key : string) (v : Js.value) :
  (forall k, key <> key_name k) ->
  normalizeToStatsData (Js.Object (<[key := v]> props))
  = normalizeToStatsData (Js.Object props)
  /\ normalizeToStatsData (Js.Object (delete key props))
     = normalizeToStatsData (Js.Object props).
Proof.
  intros Hkey. split; apply normalize_ext; intros k; cbn [Js.get].
  - now rewrite lookup_insert_ne by apply Hkey.
  - now rewrite lookup_delete_ne by apply Hkey.
Qed.

(** X3, adding [websiteId] to a payload with 7 visits. *)
Lemma X3_unknown_keys_ignored_witness :
  normalizeToStatsData
    (Js.Object (<["websiteId" := Js.String "2ff5fb4d"]>
                  (list_to_map [("visits", Js.Number 7)])))
  = normalizeToStatsData (Js.obj [("visits", Js.Number 7)]).
Proof.
  apply (proj1 (X3_unknown_keys_ignored
                  (list_to_map [("visits", Js.Number 7)])
                  "websiteId" (Js.String "2ff5fb4d")
                  ltac:(intros [] Hk; discriminate Hk))).
Defined.

(** X4: whatever the payload, the [value] and [prev] of [pageviews],
    [visitors], [visits] and [bounces] in the snapshot are finite numbers. *)
Theorem X4_count_metrics_are_finite (raw : Js.value) :
  let s := normalizeToStatsData raw in
  (Js.Number_isFinite (value (pageviews s)) = true
   /\ Js.Number_isFinite (prev (pageviews s)) = true)
  /\ (Js.Number_isFinite (value (visitors s)) = true
      /\ Js.Number_isFinite (prev (visitors s)) = true)
  /\ (Js.Number_isFinite (value (visits s)) = true
      /\ Js.Number_isFinite (prev (visits s)) = true)
  /\ (Js.Number_isFinite (value (bounces s)) = true
      /\ Js.Number_isFinite (prev (bounces s)) = true).
Proof.
  cbv zeta. cbn [normalizeToStatsData pageviews visitors visits bounces].
  repeat apply conj; apply unwrapValPrev_finite.
Qed.

(** X5: a count metric given as an object with finite numbers for [value]
    and [prev], not both [=== 0], comes out exactly as given. *)
Theorem X5_well_formed_metric_kept
    (k : MetricKey) (raw : Js.value) (props : gmap string Js.value) (v p : float) :
  is_count k = true ->
  Js.get raw (key_name k) = Js.Object props ->
  props !! "value" = Some (Js.Number v) ->
  props !! "prev" = Some (Js.Number p) ->
  Js.Number_isFinite v = true ->
  Js.Number_isFinite p = true ->
  Js.strict_neq v 0 || Js.strict_neq p 0 = true ->
  metric_of k (normalizeToStatsData raw) = {| value := v; prev := p |}.
Proof.
  intros Hk Hraw Hv Hp Hfv Hfp Hnz.
  rewrite (normalize_count _ _ Hk), Hraw.
  rewrite unwrapValPrev_object by reflexivity. cbn [Js.get].
  rewrite Hv, Hp. cbn [default].
  rewrite (toNum_of_finite _ _ Hfv), (toNum_of_finite _ _ Hfp).
  now rewrite Hnz.
Qed.

(** X5, at bounces of 12 now and 0 before. *)
Lemma X5_well_formed_metric_kept_witness :
  bounces
    (normalizeToStatsData
       (Js.obj [("bounces", Js.obj [("value", Js.Number 12);
                                    ("prev", Js.Number 0)])]))
  = {| value := 12; prev := 0 |}.
Proof.
  apply (X5_well_formed_metric_kept
           Bounces
           (Js.obj [("bounces", Js.obj [("value", Js.Number 12);
                                        ("prev", Js.Number 0)])])
           (list_to_map [("value", Js.Number 12); ("prev", Js.Number 0)])
           12 0);
    reflexivity.
Defined.

(** X6: when the resolved seconds of a period are 0 (no [totaltime] in the
    payload, or one that is not numeric), the minutes of that period are 0
    whatever the visits. *)
Theorem X6_no_seconds_no_minutes (raw : Js.value) :
  (value (unwrapValPrev (Js.get raw "totaltime")) = 0 ->
   value (totaltime (normalizeToStatsData raw)) = 0)
  /\ (prev (unwrapValPrev (Js.get raw "totaltime")) = 0 ->
      prev (totaltime (normalizeToStatsData raw)) = 0).
Proof.
  rewrite normalize_totaltime. cbn [value prev].
  split; intros ->; apply avgMinutes_zero.
Qed.

(** X6, at 10 visits and 5 before, with no [totaltime]. *)
Lemma X6_no_seconds_no_minutes_witness :
  totaltime
    (normalizeToStatsData
       (Js.obj [("visits", Js.obj [("value", Js.Number 10);
                                   ("prev", Js.Number 5)])]))
  = {| value := 0; prev := 0 |}.
Proof.
  destruct (X6_no_seconds_no_minutes
              (Js.obj [("visits", Js.obj [("value", Js.Number 10);
                                          ("prev", Js.Number 5)])]))
    as [Hvalue Hprev].
  specialize (Hvalue eq_refl). specialize (Hprev eq_refl).
  destruct (totaltime _) as [tv tp]. cbn [value prev] in *.
  now rewrite Hvalue, Hprev.
Defined.

End NormalizerEdges.

(** ** More on the load life cycle *)

Section SingleShot.

Variable env : Env.

Lemma load_sets_at_most_once : sets_at_most_once (load env).
Proof. walk_task. Qed.

Lemma sets_nothing_at_most_once (t : Async unit) :
  sets_nothing t -> sets_at_most_once t.
Proof.
  induction t as [a | e | url k IH | res k IH | l k IH | k IH | s k IH];
    cbn; intros Hn; auto. destruct Hn.
Qed.

(** Running a task that sets nothing leaves state and setter calls alone. *)
Lemma advance_sets_nothing (t : Async unit) :
  forall w : Widget,
    sets_nothing t ->
    stats (advance t w) = stats w
    /\ setStats_calls (advance t w) = setStats_calls w
    /\ sets_nothing (task (advance t w)).
Proof.
  induction t as [a | e | url k IH | res k IH | l k IH | k IH | s k IH];
    intros w Hn; cbn [advance].
  - cbn. auto.
  - cbn. auto.
  - cbn in *. auto.
  - cbn in *. auto.
  - apply (IH (logged l w)), Hn.
  - apply IH, Hn.
  - destruct Hn.
Qed.

(** Running a task that sets at most once either sets nothing now, or
    sets once now and nothing later. *)
Lemma advance_sets_at_most_once (t : Async unit) :
  forall w : Widget,
    sets_at_most_once t ->
    (stats (advance t w) = stats w
     /\ setStats_calls (advance t w) = setStats_calls w
     /\ sets_at_most_once (task (advance t w)))
    \/ (exists s, stats (advance t w) = Some s
                  /\ setStats_calls (advance t w) = s :: setStats_calls w
                  /\ sets_nothing (task (advance t w))).
Proof.
  induction t as [a | e | url k IH | res k IH | l k IH | k IH | s k IH];
    intros w Hn; cbn [advance].
  - left. cbn. auto.
  - left. cbn. auto.
  - left. cbn in *. auto.
  - left. cbn in *. auto.
  - apply (IH (logged l w)), Hn.
  - apply IH, Hn.
  - right. exists s.
    destruct (advance_sets_nothing k (stats_set s w) Hn) as (H1 & H2 & H3).
    split; [exact H1 | split; [exact H2 | exact H3]].
Qed.

Lemma mount_single_shot : single_shot (mount env).
Proof.
  unfold mount.
  destruct (advance_sets_at_most_once (load env)
              {| stats := None; mounted := true; task := Ret tt;
                 console := []; setStats_calls := [] |}
              load_sets_at_most_once)
    as [(H1 & H2 & H3) | (s & H1 & H2 & H3)].
  - left. split; [exact H1 | split; [exact H2 | exact H3]].
  - right. exists s. split; [exact H1 | split; [exact H2 | exact H3]].
Qed.

Lemma advance_single_shot (t : Async unit) (w : Widget) :
  single_shot w ->
  (stats w = None -> sets_at_most_once t) ->
  (stats w <> None -> sets_nothing t) ->
  single_shot (advance t w)
  /\ (stats w <> None -> stats (advance t w) = stats w).
Proof.
  intros [(Hs & Hc & _) | (s & Hs & Hc & _)] Hnone Hsome.
  - split; [| congruence].
    destruct (advance_sets_at_most_once t w (Hnone Hs))
      as [(H1 & H2 & H3) | (s & H1 & H2 & H3)].
    + left. split; [congruence | split; [congruence | exact H3]].
    + right. exists s. rewrite Hc in H2.
      split; [exact H1 | split; [exact H2 | exact H3]].
  - assert (Hset : stats w <> None) by congruence.
    destruct (advance_sets_nothing t w (Hsome Hset)) as (H1 & H2 & H3).
    split; [| intros _; exact H1].
    right. exists s. split; [congruence | split; [congruence | exact H3]].
Qed.

Lemma step_single_shot (w : Widget) (ev : Event) :
  single_shot w ->
  single_shot (step w ev)
  /\ (stats w <> None -> stats (step w ev) = stats w).
Proof.
  intros Hw. unfold step.
  destruct ev as [c | c |].
  - destruct (task w) as [a | e | url k | res k | l k | k | s k] eqn:Ht;
      try (split; [exact Hw | reflexivity]).
    apply advance_single_shot; [exact Hw | |].
    + intros Hs. destruct Hw as [(_ & _ & Hk) | (s & Hs' & _)]; [| congruence].
      rewrite Ht in Hk. apply Hk.
    + intros Hs. destruct Hw as [(Hs' & _) | (s & _ & _ & Hk)]; [congruence |].
      rewrite Ht in Hk. apply Hk.
  - destruct (task w) as [a | e | url k | res k | l k | k | s k] eqn:Ht;
      try (split; [exact Hw | reflexivity]).
    apply advance_single_shot; [exact Hw | |].
    + intros Hs. destruct Hw as [(_ & _ & Hk) | (s & Hs' & _)]; [| congruence].
      rewrite Ht in Hk. apply Hk.
    + intros Hs. destruct Hw as [(Hs' & _) | (s & _ & _ & Hk)]; [congruence |].
      rewrite Ht in Hk. apply Hk.
  - split; [exact Hw | reflexivity].
Qed.

Lemma run_single_shot (evs : list Event) :
  forall w : Widget,
    single_shot w ->
    single_shot (run w evs)
    /\ (stats w <> None -> stats (run w evs) = stats w).
Proof.
  induction evs as [| ev evs IH]; intros w Hw; cbn [run foldl].
  - auto.
  - destruct (step_single_shot w ev Hw) as [Hw' Hkept].
    destruct (IH _ Hw') as [Hw'' Hkept'']. fold (run (step w ev) evs) in *.
    split; [exact Hw'' |].
    intros Hset. rewrite Hkept'' by (rewrite (Hkept Hset); exact Hset).
    apply Hkept, Hset.
Qed.

(** X7: after a response that is [ok] whose body parses, the widget is
    [Ready] with the normalized body, set by the one call of the setter;
    nothing has been logged and [load()] has returned. *)
Theorem X7_successful_load (res : Fetch.Response) (raw : Js.value) :
  Fetch.ok res = true ->
  let w := run (mount env) (events_of (Responds res (Normal raw))) in
  state_of w = Ready (normalizeToStatsData raw)
  /\ setStats_calls w = [normalizeToStatsData raw]
  /\ console w = []
  /\ task w = Ret tt.
Proof. intros Hok. cbn. rewrite Hok. repeat split. Qed.

(** X8: a response that is [ok] whose body has none of the five properties
    (an error envelope, an empty object, null) shows the all-zero snapshot,
    as a failure does, but logs nothing. *)
Theorem X8_unexpected_body_shows_zeroes (res : Fetch.Response) (raw : Js.value) :
  Fetch.ok res = true ->
  (forall k, Js.get raw (key_name k) = Js.Undefined) ->
  let w := run (mount env) (events_of (Responds res (Normal raw))) in
  state_of w = Ready zeroStats /\ console w = [].
Proof.
  intros Hok Hraw. cbn. rewrite Hok. cbn.
  now rewrite (normalize_keyless raw Hraw).
Qed.

End SingleShot.

(** X7, in the browser, at status 200 and 7 visits. *)
Lemma X7_successful_load_witness :
  state_of
    (run (mount {| window_defined := true; NEXT_PUBLIC_BASE_URL := None |})
         [FetchSettled (Normal {| Fetch.status := 200; Fetch.statusText := "OK" |});
          JsonSettled (Normal (Js.obj [("visits", Js.Number 7)]))])
  = Ready (normalizeToStatsData (Js.obj [("visits", Js.Number 7)])).
Proof.
  exact (proj1
    (X7_successful_load
       {| window_defined := true; NEXT_PUBLIC_BASE_URL := None |}
       {| Fetch.status := 200; Fetch.statusText := "OK" |}
       (Js.obj [("visits", Js.Number 7)])
       eq_refl)).
Defined.

(** X8, in the browser, at status 200 and the proxy's error envelope. *)
Lemma X8_unexpected_body_shows_zeroes_witness :
  state_of
    (run (mount {| window_defined := true; NEXT_PUBLIC_BASE_URL := None |})
         [FetchSettled (Normal {| Fetch.status := 200; Fetch.statusText := "OK" |});
          JsonSettled
            (Normal (Js.obj [("error", Js.String "Failed to fetch website metrics")]))])
  = Ready zeroStats.
Proof.
  refine (proj1
    (X8_unexpected_body_shows_zeroes
       {| window_defined := true; NEXT_PUBLIC_BASE_URL := None |}
       {| Fetch.status := 200; Fetch.statusText := "OK" |}
       (Js.obj [("error", Js.String "Failed to fetch website metrics")])
       eq_refl _)).
  intros []; reflexivity.
Defined.

Section OneLoadPerMount.

Variable env : Env.

(** The URL [fetchStats] fetches. *)
Let url : string :=
  (if window_defined env then ""
   else default "undefined" (NEXT_PUBLIC_BASE_URL env))
  ++ "/api/fetch-umami-stats".

(** X9: over every sequence of events, the setter is called at most once,
    and the state is what it was called with: no calls while the state is
    [null], one call with the snapshot held otherwise. *)
Theorem X9_setter_called_at_most_once (evs : list Event) :
  let w := run (mount env) evs in
  setStats_calls w = match stats w with None => [] | Some s => [s] end
  /\ length (setStats_calls w) <= 1.
Proof.
  cbv zeta.
  destruct (run_single_shot evs _ (mount_single_shot env))
    as [[(Hs & Hc & _) | (s & Hs & Hc & _)] _];
    rewrite Hs, Hc; cbn; split; auto.
Qed.

(** X10: [Ready] is final: once the widget holds a snapshot, no later event
    (a late settlement, a cleanup) changes it. *)
Theorem X10_ready_is_final (evs later : list Event) (s : StatsData) :
  state_of (run (mount env) evs) = Ready s ->
  state_of (run (mount env) (evs ++ later)) = Ready s.
Proof.
  unfold state_of. intros Hready.
  destruct (stats (run (mount env) evs)) as [s' |] eqn:Hs; [| discriminate].
  destruct (run_single_shot evs _ (mount_single_shot env)) as [Hw _].
  destruct (run_single_shot later _ Hw) as [_ Hkept].
  rewrite run_app, Hkept by congruence. now rewrite Hs.
Qed.


(** X12: what a load attempt logs: nothing when it succeeds; the status and
    status text when the response is not [ok] (whose body is then never
    read); the thrown value when the fetch or the body throws. It logs the
    same whether or not the cleanup has run first. *)
Theorem X12_console_of_a_load (o : Outcome) (cleaned_up : bool) :
  let evs := app (if cleaned_up then [Cleanup] else []) (events_of o) in
  console (run (mount env) evs)
  = match o with
    | FetchThrows e => [Error_loading_stats e]
    | Responds res body =>
        if Fetch.ok res
        then match body with
             | Normal _ => []
             | Throw e => [Error_loading_stats e]
             end
        else [Failed_to_fetch_stats (Fetch.status res) (Fetch.statusText res)]
    end.
Proof.
  cbv zeta.
  destruct o as [e | res [raw | e]], cleaned_up; cbn;
    try reflexivity; destruct (Fetch.ok res); reflexivity.
Qed.

End OneLoadPerMount.

(** X10, in the browser: after a failed fetch the widget is [Ready] with
    zeroes, and a late body and a cleanup leave it so. *)
Lemma X10_ready_is_final_witness :
  state_of
    (run (mount {| window_defined := true; NEXT_PUBLIC_BASE_URL := None |})
         [FetchSettled (Throw (Js.String "offline"));
          JsonSettled (Normal (Js.obj [("visits", Js.Number 7)]));
          Cleanup])
  = Ready zeroStats.
Proof.
  apply (X10_ready_is_final
           {| window_defined := true; NEXT_PUBLIC_BASE_URL := None |}
           [FetchSettled (Throw (Js.String "offline"))]
           [JsonSettled (Normal (Js.obj [("visits", Js.Number 7)])); Cleanup]
           zeroStats).
  reflexivity.
Defined.


(** ** More on rendering *)

Section Rendering.

Local Open Scope float_scope.

(** X13: with no snapshot there are no slices; with one there are five, one
    per metric in the order pageviews, visitors, visits, bounces, totaltime,
    each with the metric's [value] as its magnitude and the fill
    [var(--color-<metric>)], and [chartConfig] has a color for each. *)
Theorem X13_one_slice_per_metric (s : StatsData) :
  chartData None = []
  /\ map Chart.type (chartData (Some s))
     = map key_name [Pageviews; Visitors; Visits; Bounces; Totaltime]
  /\ forall k, exists slice entry color,
       In slice (chartData (Some s))
       /\ Chart.type slice = key_name k
       /\ Chart.visitors slice = value (metric_of k s)
       /\ Chart.fill slice = ("var(--color-" ++ key_name k ++ ")")%string
       /\ config_of (key_name k) = Some entry
       /\ config_color entry = Some color.
Proof.
  split; [reflexivity |]. split; [reflexivity |].
  set (slice0 := {| Chart.type := ""; Chart.visitors := 0; Chart.fill := "" |}).
  assert (Hlookup : forall k, exists entry color,
             config_of (key_name k) = Some entry
             /\ config_color entry = Some color).
  { intros []; vm_compute; eauto. }
  intros k. destruct (Hlookup k) as (entry & color & Hentry & Hcolor).
  destruct k;
    [ exists (nth 0 (chartData (Some s)) slice0)
    | exists (nth 1 (chartData (Some s)) slice0)
    | exists (nth 2 (chartData (Some s)) slice0)
    | exists (nth 3 (chartData (Some s)) slice0)
    | exists (nth 4 (chartData (Some s)) slice0) ];
    exists entry, color; cbn [nth chartData In];
    (split; [tauto |]); repeat split; assumption.
Qed.

(** X14: the label renders nothing exactly when there is no view box or the
    view box lacks [cx] or [cy]. *)
Theorem X14_label_needs_a_centre (visitsValue : float) (viewBox : option Chart.ViewBox) :
  label visitsValue viewBox = None
  <-> viewBox = None
      \/ exists box, viewBox = Some box
                     /\ (Chart.cx box = None \/ Chart.cy box = None).
Proof.
  destruct viewBox as [[[cx |] [cy |]] |]; cbn; split; intros H;
    try discriminate; try reflexivity; try (now left);
    try (right; eexists; split; [reflexivity |]; cbn; tauto).
  destruct H as [H | (box & [= <-] & [H | H])]; discriminate.
Qed.

(** X14, at a view box with [cx] but no [cy]. *)
Lemma X14_label_needs_a_centre_witness :
  label 7 (Some {| Chart.cx := Some 125; Chart.cy := None |}) = None.
Proof.
  apply (proj2 (X14_label_needs_a_centre
                  7 (Some {| Chart.cx := Some 125; Chart.cy := None |}))).
  right. eexists. split; [reflexivity |]. right. reflexivity.
Defined.

(** X15: the previous-period figures are never rendered: two snapshots with
    the same five [value]s render the same chart, whatever their [prev]s. *)
Theorem X15_prev_is_not_rendered (s s' : StatsData) :
  (forall k, value (metric_of k s) = value (metric_of k s')) ->
  StatsChart (Some s) = StatsChart (Some s').
Proof.
  intros Hsame.
  pose proof (Hsame Pageviews) as Hp. pose proof (Hsame Visitors) as Hv.
  pose proof (Hsame Visits) as Hs. pose proof (Hsame Bounces) as Hb.
  pose proof (Hsame Totaltime) as Ht. cbn [metric_of] in *.
  unfold StatsChart, chartData. now rewrite Hp, Hv, Hs, Hb, Ht.
Qed.

(** X15, at all-zero snapshots but for a [visits.prev] of 5 in one. *)
Lemma X15_prev_is_not_rendered_witness :
  StatsChart
    (Some {| pageviews := {| value := 0; prev := 0 |};
             visitors := {| value := 0; prev := 0 |};
             visits := {| value := 0; prev := 5 |};
             bounces := {| value := 0; prev := 0 |};
             totaltime := {| value := 0; prev := 0 |} |})
  = StatsChart (Some zeroStats).
Proof.
  apply X15_prev_is_not_rendered. intros []; reflexivity.
Defined.

(** X16: the caption sits 24 below [cy]; when [cy] is falsy (a zero, or
    NaN) it sits at 24, while the number stays at [cy]. *)
Theorem X16_caption_offset (visitsValue cx cy : float) :
  exists text number caption,
    label visitsValue (Some {| Chart.cx := Some cx; Chart.cy := Some cy |})
    = Some text
    /\ Chart.tspans text = [number; caption]
    /\ Chart.tspan_y number = cy
    /\ ((cy =? 0) || PrimFloat.is_nan cy = false ->
        Chart.tspan_y caption = cy + 24)
    /\ ((cy =? 0) || PrimFloat.is_nan cy = true ->
        Chart.tspan_y caption = 24).
Proof.
  do 3 eexists. split; [reflexivity |]. split; [reflexivity |].
  split; [reflexivity |]. cbn [Chart.tspan_y]. unfold or_zero.
  split; intros ->; reflexivity.
Qed.

(** X16, at a [cy] of NaN. *)
Lemma X16_caption_offset_witness :
  exists text number caption,
    label 7 (Some {| Chart.cx := Some 125; Chart.cy := Some nan |}) = Some text
    /\ Chart.tspans text = [number; caption]
    /\ Chart.tspan_y caption = 24.
Proof.
  destruct (X16_caption_offset 7 125 nan)
    as (text & number & caption & Hlabel & Hspans & _ & _ & Hfalsy).
  exists text, number, caption.
  split; [exact Hlabel | split; [exact Hspans | apply Hfalsy; reflexivity]].
Defined.

End Rendering.

(** X19: from fetch to label: after a load attempt, whatever its outcome,
    the widget renders the chart, and its label shows the payload's resolved
    [visits.value] when the response was [ok] and its body parsed, and 0
    after any failure. *)
Theorem X19_label_after_load (env : Env) (o : Outcome) (cx cy : float) :
  let w := run (mount env) (events_of o) in
  let shown :=
    match o with
    | Responds res (Normal raw) =>
        if Fetch.ok res then value (unwrapValPrev (Js.get raw "visits"))
        else 0%float
    | _ => 0%float
    end in
  exists pie text number caption,
    view w = PieChart pie
    /\ Chart.label_content pie
         (Some {| Chart.cx := Some cx; Chart.cy := Some cy |}) = Some text
    /\ Chart.tspans text = [number; caption]
    /\ Chart.child number = Chart.NumberChild shown.
Proof.
  cbv zeta.
  destruct o as [e | res [raw | e]]; cbn;
    try destruct (Fetch.ok res); cbn; do 4 eexists; repeat split.
Qed.

(** ** More on the route handlers *)

Section RouteEdges.

Local Open Scope float_scope.

Context {Body : Type} (JSON_stringify : Js.value -> Body).

(** The queries of the two handlers, with their windows worked out. *)
Lemma metricsData_window (now : float) :
  Route.metricsData now
  = Js.obj [("startAt", Js.Number (now - 604800000));
            ("endAt", Js.Number now);
            ("type", Js.String "url")].
Proof. reflexivity. Qed.

Lemma pageviewsData_window (now : float) :
  Route.pageviewsData now
  = Js.obj [("startAt", Js.Number (now - 31536000000));
            ("endAt", Js.Number now);
            ("unit", Js.String "day");
            ("timezone", Js.String "America/Los_Angeles");
            ("region", Js.String "US")].
Proof. reflexivity. Qed.

(** X17: what the handlers ask the client for, at a time [now]. The stats
    handler's response is decided by the client's answer to one call,
    [getWebsiteStats] at the fixed website id with the 7 days (604800000 ms)
    that end at [now] and the type [url]; the pageviews handler's by its
    answer to [getWebsitePageviews] at that id with the 365 days
    (31536000000 ms) that end at [now], by day, in the timezone
    America/Los_Angeles and the region US. A client that answers each call
    with the call's name and arguments gets exactly these back from the
    handlers, with status 200. *)
Theorem X17_query_windows (client client' : Umami.Client) (now : float) :
  let site := "2ff5fb4d-88e4-48a1-98ef-04b8191a6a5c" in
  let stats_query :=
    Js.obj [("startAt", Js.Number (now - 604800000));
            ("endAt", Js.Number now);
            ("type", Js.String "url")] in
  let pageviews_query :=
    Js.obj [("startAt", Js.Number (now - 31536000000));
            ("endAt", Js.Number now);
            ("unit", Js.String "day");
            ("timezone", Js.String "America/Los_Angeles");
            ("region", Js.String "US")] in
  let called name id query :=
    Js.obj [("call", Js.String name); ("websiteId", Js.String id);
            ("query", query)] in
  let answer name id query :=
    Normal {| Umami.ok := true; Umami.data := called name id query;
              Umami.status := 200; Umami.error := Js.Undefined |} in
  let echo :=
    {| Umami.getWebsiteStats := answer "getWebsiteStats";
       Umami.getWebsitePageviews := answer "getWebsitePageviews" |} in
  (Umami.getWebsiteStats client site stats_query
   = Umami.getWebsiteStats client' site stats_query ->
   Route.GET_stats JSON_stringify client now
   = Route.GET_stats JSON_stringify client' now)
  /\ (Umami.getWebsitePageviews client site pageviews_query
      = Umami.getWebsitePageviews client' site pageviews_query ->
      Route.GET_pageviews JSON_stringify client now
      = Route.GET_pageviews JSON_stringify client' now)
  /\ Route.GET_stats JSON_stringify echo now
     = Normal {| Route.body :=
                   Some (JSON_stringify (called "getWebsiteStats" site stats_query));
                 Route.status := 200 |}
  /\ Route.GET_pageviews JSON_stringify echo now
     = Normal {| Route.body :=
                   Some (JSON_stringify
                           (called "getWebsitePageviews" site pageviews_query));
                 Route.status := 200 |}.
Proof.
  cbv zeta. unfold Route.GET_stats, Route.GET_pageviews.
  rewrite metricsData_window, pageviewsData_window. unfold Route.websiteId.
  split; [| split; [| split]].
  - intros ->. reflexivity.
  - intros ->. reflexivity.
  - reflexivity.
  - reflexivity.
Qed.

(** X18: each handler's response is decided by its one client call (the
    stats handler's by [getWebsiteStats], the pageviews handler's by
    [getWebsitePageviews], at the fixed website id and the query of [now]),
    and by no more of its settlement than: whether it threw; [ok]; the
    [data] when [ok]; the [status] when not. The thrown value and the
    client's [error] never reach the response. *)
Theorem X18_handlers_read_only_ok_data_status
    (client client' : Umami.Client) (now : float) :
  (relayed_alike
     (Umami.getWebsiteStats client Route.websiteId (Route.metricsData now))
     (Umami.getWebsiteStats client' Route.websiteId (Route.metricsData now)) ->
   Route.GET_stats JSON_stringify client now
   = Route.GET_stats JSON_stringify client' now)
  /\ (relayed_alike
        (Umami.getWebsitePageviews client Route.websiteId (Route.pageviewsData now))
        (Umami.getWebsitePageviews client' Route.websiteId (Route.pageviewsData now)) ->
      Route.GET_pageviews JSON_stringify client now
      = Route.GET_pageviews JSON_stringify client' now).
Proof.
  unfold Route.GET_stats, Route.GET_pageviews, relayed_alike.
  split.
  - destruct (Umami.getWebsiteStats client _ _) as [r | e],
             (Umami.getWebsiteStats client' _ _) as [r' | e'];
      cbn; try tauto.
    intros [Hok Hrest]. rewrite <- Hok.
    destruct (Umami.ok r); cbn; now rewrite Hrest.
  - destruct (Umami.getWebsitePageviews client _ _) as [r | e],
             (Umami.getWebsitePageviews client' _ _) as [r' | e'];
      cbn; try tauto.
    intros [Hok Hrest]. rewrite <- Hok.
    destruct (Umami.ok r); cbn; now rewrite Hrest.
Qed.

End RouteEdges.

(** X17, with the values as the body: a client that answers not [ok] with
    status 403 at the fixed website id, and throws at any other, gets the
    same answer from the stats handler as one that answers so everywhere. *)
Lemma X17_query_windows_witness :
  let forbidden :=
    {| Umami.ok := false; Umami.data := Js.Undefined;
       Umami.status := 403; Umami.error := Js.String "Forbidden" |} in
  Route.GET_stats (fun v => v)
    {| Umami.getWebsiteStats := fun id _ =>
         if String.eqb id "2ff5fb4d-88e4-48a1-98ef-04b8191a6a5c"
         then Normal forbidden else Throw (Js.String "unknown website");
       Umami.getWebsitePageviews := fun _ _ => Throw Js.Null |}
    1700000000000
  = Route.GET_stats (fun v => v)
      {| Umami.getWebsiteStats := fun _ _ => Normal forbidden;
         Umami.getWebsitePageviews := fun _ _ => Throw Js.Null |}
      1700000000000.
Proof.
  cbv zeta.
  apply (proj1 (X17_query_windows (fun v => v) _ _ _)).
  reflexivity.
Defined.

(** X18, with the values as the body: two clients whose stats calls report
    status 403 with different error texts, and whose pageviews calls differ,
    get the same answer from the stats handler. *)
Lemma X18_handlers_read_only_ok_data_status_witness :
  Route.GET_stats (fun v => v)
    {| Umami.getWebsiteStats := fun _ _ =>
         Normal {| Umami.ok := false; Umami.data := Js.Undefined;
                   Umami.status := 403; Umami.error := Js.String "Forbidden" |};
       Umami.getWebsitePageviews := fun _ _ => Throw Js.Null |}
    1700000000000
  = Route.GET_stats (fun v => v)
      {| Umami.getWebsiteStats := fun _ _ =>
           Normal {| Umami.ok := false; Umami.data := Js.Number 1;
                     Umami.status := 403; Umami.error := Js.String "token expired" |};
         Umami.getWebsitePageviews := fun _ _ =>
           Normal {| Umami.ok := true; Umami.data := Js.Null;
                     Umami.status := 200; Umami.error := Js.Undefined |} |}
      1700000000000.
Proof.
  apply (proj1 (X18_handlers_read_only_ok_data_status (fun v => v) _ _ _)).
  split; reflexivity.
Defined.

(** ** What the widget can show *)

Section ShownSnapshots.

Variable env : Env.

Lemma shows_only_mono (t : Async unit) :
  forall allowed allowed' : StatsData -> Prop,
    (forall s, allowed s -> allowed' s) ->
    shows_only allowed t -> shows_only allowed' t.
Proof.
  induction t as [a | e | url k IH | res k IH | l k IH | k IH | s k IH];
    intros allowed allowed' Hsub Ht; cbn in *; auto.
  - intros c. apply (IH c allowed); auto.
  - intros c. eapply (IH c); [| apply Ht].
    intros s [Hs | Hs]; [left; auto | right; exact Hs].
  - apply (IH allowed); auto.
  - intros b. apply (IH b allowed); auto.
  - destruct Ht as [Hs Hk]. split; [auto | apply (IH allowed); auto].
Qed.

Lemma load_shows_only : shows_only (fun s => s = zeroStats) (load env).
Proof.
  cbn. intros [res | e]; cbn.
  - destruct (Fetch.ok res); cbn.
    + intros [raw | e]; cbn; intros []; cbn; eauto.
    + intros []; cbn; auto.
  - intros []; cbn; auto.
Qed.

Lemma advance_shows_only (t : Async unit) :
  forall (allowed : StatsData -> Prop) (w : Widget),
    shows_only allowed t ->
    (forall s, stats w = Some s -> allowed s) ->
    (forall s, stats (advance t w) = Some s -> allowed s)
    /\ shows_only allowed (task (advance t w)).
Proof.
  induction t as [a | e | url k IH | res k IH | l k IH | k IH | s k IH];
    intros allowed w Ht Hw; cbn [advance].
  - cbn. auto.
  - cbn. auto.
  - cbn in *. auto.
  - cbn in *. auto.
  - apply (IH allowed (logged l w)); [exact Ht | exact Hw].
  - apply IH; [apply Ht | exact Hw].
  - destruct Ht as [Hs Hk]. apply (IH allowed (stats_set s w)); [exact Hk |].
    cbn. intros s' [= <-]. exact Hs.
Qed.

Lemma arrived_app (evs evs' : list Event) (s : StatsData) :
  arrived evs s -> arrived (evs ++ evs') s.
Proof.
  intros [Hz | (raw & Hin & Hs)]; [now left |].
  right. exists raw. split; [apply in_or_app; now left | exact Hs].
Qed.

Lemma step_shows_only (seen : list Event) (w : Widget) (ev : Event) :
  (forall s, stats w = Some s -> arrived seen s) ->
  shows_only (arrived seen) (task w) ->
  (forall s, stats (step w ev) = Some s -> arrived (seen ++ [ev]) s)
  /\ shows_only (arrived (seen ++ [ev])) (task (step w ev)).
Proof.
  intros Hw Ht.
  assert (Hw' : forall s, stats w = Some s -> arrived (seen ++ [ev]) s)
    by (intros s Hs; apply arrived_app, Hw, Hs).
  assert (Ht' : shows_only (arrived (seen ++ [ev])) (task w))
    by (apply (shows_only_mono _ (arrived seen)); [apply arrived_app | exact Ht]).
  unfold step. destruct ev as [c | c |].
  - destruct (task w) as [a | e | url k | res k | l k | k | s k] eqn:Hk;
      try (rewrite Hk; now split).
    apply advance_shows_only; [apply Ht' | exact Hw'].
  - destruct (task w) as [a | e | url k | res k | l k | k | s k] eqn:Hk;
      try (rewrite Hk; now split).
    apply advance_shows_only; [| exact Hw'].
    eapply shows_only_mono; [| apply (Ht c)].
    intros s [Hs | (raw & -> & Hs)]; [apply arrived_app, Hs |].
    right. exists raw. split; [apply in_or_app; right; now left | exact Hs].
  - split; [exact Hw' | exact Ht'].
Qed.

Lemma run_shows_only (evs : list Event) :
  forall (seen : list Event) (w : Widget),
    (forall s, stats w = Some s -> arrived seen s) ->
    shows_only (arrived seen) (task w) ->
    forall s, stats (run w evs) = Some s -> arrived (seen ++ evs) s.
Proof.
  induction evs as [| ev evs IH]; intros seen w Hw Ht s; cbn [run foldl].
  - rewrite app_nil_r. apply Hw.
  - fold (run (step w ev) evs).
    destruct (step_shows_only seen w ev Hw Ht) as [Hw' Ht'].
    replace (seen ++ ev :: evs)%list with ((seen ++ [ev]) ++ evs)%list
      by (now rewrite <- app_assoc).
    apply (IH _ _ Hw' Ht').
Qed.

(** X20: whatever the events, a snapshot the widget holds is the all-zero
    one or the normalization of a body that arrived; so its four count
    metrics are finite numbers. *)
Theorem X20_shows_zeroes_or_a_normalized_body (evs : list Event) (s : StatsData) :
  state_of (run (mount env) evs) = Ready s ->
  (s = zeroStats
   \/ exists raw, In (JsonSettled (Normal raw)) evs
                  /\ s = normalizeToStatsData raw)
  /\ forall k, is_count k = true ->
       Js.Number_isFinite (value (metric_of k s)) = true
       /\ Js.Number_isFinite (prev (metric_of k s)) = true.
Proof.
  unfold state_of.
  destruct (stats (run (mount env) evs)) as [s' |] eqn:Hs; [| discriminate].
  intros [= ->].
  assert (Harrived : arrived evs s).
  { destruct (advance_shows_only (load env) (arrived [])
                {| stats := None; mounted := true; task := Ret tt;
                   console := []; setStats_calls := [] |}) as [Hw Ht].
    - apply (shows_only_mono _ (fun s => s = zeroStats)); [| apply load_shows_only].
      intros s0 ->. now left.
    - discriminate.
    - apply (run_shows_only evs [] (mount env) Hw Ht s Hs). }
  split; [exact Harrived |].
  intros k Hk. destruct Harrived as [-> | (raw & _ & ->)].
  - destruct k; try discriminate; split; reflexivity.
  - apply count_metrics_finite, Hk.
Qed.

End ShownSnapshots.

(** X20, in the browser, after a response with status 200 and 7 visits. *)
Lemma X20_shows_zeroes_or_a_normalized_body_witness :
  Js.Number_isFinite
    (value (visits (normalizeToStatsData (Js.obj [("visits", Js.Number 7)]))))
  = true.
Proof.
  apply (proj2
    (X20_shows_zeroes_or_a_normalized_body
       {| window_defined := true; NEXT_PUBLIC_BASE_URL := None |}
       [FetchSettled (Normal {| Fetch.status := 200; Fetch.statusText := "OK" |});
        JsonSettled (Normal (Js.obj [("visits", Js.Number 7)]))]
       (normalizeToStatsData (Js.obj [("visits", Js.Number 7)]))
       eq_refl)
    Visits eq_refl).
Defined.
